(** * Trafilatura MCP server: validation, acquisition and tool protocol

    A shallow embedding of [src/trafilatura_mcp/server.py].

    The module has four layers, embedded in the order of the source:
    - the pydantic model [ExtractMarkdownInput] with its field and model
      validators (pure);
    - [fetch_url_async] and [extract_content_async], thin wrappers around
      the HTTP client and the extraction engine;
    - [extract_markdown_tool], the pipeline validate / acquire / extract;
    - [list_tools] and [call_tool], the protocol surface.

    Collaborators that live outside the repository (urllib's [urlparse],
    the HTTP client, the extraction engine, the string rendering of
    errors) are variables of the section [Server]; nothing is assumed
    about them.  Effects are explicit: a computation threads the state of
    the outside world and a log of the collaborator calls it made. *)

From Stdlib Require Import ZArith Lia Bool Ascii.
From stdpp Require Import base strings gmap pretty.

Set Default Proof Using "Type".

Local Open Scope string_scope.
Local Open Scope Z_scope.

(** ** Python values and strings *)

(** Values of an argument payload.  The payload is decoded JSON: null,
    booleans, numbers and strings.  An integral number is a [VInt]
    whether it was written [30] or [30.0] (pydantic's lax mode treats
    both alike for every field type of this model); [VOther] stands for
    the values no field of the model accepts: arrays, objects and
    numbers with a fractional part. *)
Inductive PyVal : Type :=
| VNone
| VBool (b : bool)
| VInt (z : Z)
| VStr (s : string)
| VOther.

(** Python's [==] on the values above: [bool] is a subclass of [int], so
    [True == 1]; a [str] equals only a [str]; [None] equals only [None]. *)
Definition py_eq (a b : PyVal) : bool :=
  match a, b with
  | VNone, VNone => true
  | VBool x, VBool y => Bool.eqb x y
  | VBool x, VInt z | VInt z, VBool x => Z.eqb (Z.b2z x) z
  | VInt x, VInt y => Z.eqb x y
  | VStr x, VStr y => String.eqb x y
  | _, _ => false
  end.

Module PyStr.

(** Strings are sequences of code points below 256.  [isspace] is
    Python's [str.isspace] on that range: TAB..CR, FS..US, SPACE, NEL and
    NBSP. *)
Definition isspace (c : ascii) : bool :=
  let n := nat_of_ascii c in
  ((9 <=? n) && (n <=? 13))%nat || ((28 <=? n) && (n <=? 32))%nat
  || (n =? 133)%nat || (n =? 160)%nat.

Fixpoint lstrip (s : string) : string :=
  match s with
  | String c s' => if isspace c then lstrip s' else s
  | EmptyString => EmptyString
  end.

Definition rstrip (s : string) : string :=
  String.rev (lstrip (String.rev s)).

(** [str.strip()] with no argument. *)
Definition strip (s : string) : string := rstrip (lstrip s).

(** [o is not None]. *)
Definition is_not_None {A} (o : option A) : bool :=
  match o with Some _ => true | None => false end.

(** [bool(s)] for a string. *)
Definition truthy (s : string) : bool := negb (String.eqb s "").

(** [bool(o)] for an [Optional[str]]. *)
Definition truthy_opt (o : option string) : bool :=
  match o with
  | Some s => truthy s
  | None => false
  end.

(** A string all of whose characters are whitespace (the empty string
    included). *)
Fixpoint blank (s : string) : bool :=
  match s with
  | String c s' => isspace c && blank s'
  | EmptyString => true
  end.

End PyStr.

(** ** Exceptions and outcomes *)

Inductive ErrorCode : Type :=
| INVALID_PARAMS
| INTERNAL_ERROR
| METHOD_NOT_FOUND.

(** One line of a pydantic [ValidationError]: the field it is about (the
    empty string for the model as a whole) and the message. *)
Record ErrorDetail : Type := { loc : string; msg : string }.

(** The exceptions the module raises or catches.  Every constructor is a
    subclass of [Exception], which is what the module's handlers catch;
    signals that derive from [BaseException] only (keyboard interrupt,
    task cancellation) arrive asynchronously and are outside the model. *)
Inductive exn : Type :=
| McpError (code : ErrorCode) (message : string)
| ValidationError (errors : list ErrorDetail)
| ValueError (message : string)
| TimeoutException (message : string)
| HTTPStatusError (status_code : Z) (message : string)
| Exception (message : string).

Inductive Outcome (A : Type) : Type :=
| Ret (a : A)
| Raise (e : exn).
Arguments Ret {A} a.
Arguments Raise {A} e.

Definition returned {A} (o : Outcome A) : bool :=
  match o with Ret _ => true | Raise _ => false end.

(** ** Records of the protocol and of the collaborators *)

(** What [urlparse] returns, restricted to the attributes the module
    reads. *)
Record ParseResult : Type := { scheme : string; netloc : string }.

Module Trafilatura.
(** Keyword arguments of [trafilatura.extract] as the module passes them. *)
Record kwargs : Type := {
  output_format : string;
  favor_recall : bool;
  include_comments : bool;
  include_tables : bool;
  include_images : bool;
  include_links : bool
}.
End Trafilatura.

Record ExtractMarkdownInput : Type := {
  url : option string;
  html : option string;
  precision : bool;
  include_comments : bool;
  include_tables : bool;
  include_images : bool;
  include_links : bool;
  timeout : Z;
  output_format : string
}.

Record TextContent : Type := { type : string; text : string }.

Record CallToolResult : Type := { content : list TextContent; isError : bool }.

Record CallToolRequestParams : Type := {
  name : string;
  arguments : option (gmap string PyVal)
}.

Record CallToolRequest : Type := {
  method : string;
  params : CallToolRequestParams
}.

(** The JSON schema literal of [list_tools], as data. *)
Inductive JsonType : Type := JString | JBoolean | JInteger.

Record Property : Type := {
  p_type : JsonType;
  p_description : string;
  p_default : option PyVal;
  p_minimum : option Z;
  p_maximum : option Z;
  p_enum : option (list string)
}.

Record InputSchema : Type := {
  properties : list (string * Property);
  oneOf : list (list string);
  additionalProperties : bool
}.

Record Tool : Type := {
  tool_name : string;
  tool_description : string;
  inputSchema : InputSchema
}.

(** ** Accumulating validation

    pydantic validates every supplied field and reports all the errors
    it found; the model validator runs only when no field failed. *)

Definition Checked (A : Type) : Type := (list ErrorDetail + A)%type.

Definition ap {A B} (f : Checked (A -> B)) (x : Checked A) : Checked B :=
  match f, x with
  | inr g, inr a => inr (g a)
  | inl e, inr _ => inl e
  | inr _, inl e => inl e
  | inl e1, inl e2 => inl (e1 ++ e2)%list
  end.

Notation "f <*> x" := (ap f x) (at level 52, left associativity).

(** A field of the model: absent from the payload it takes its default
    (which pydantic does not validate), present it goes through the
    field's validation. *)
Definition field {A} (args : gmap string PyVal) (key : string) (default : A)
    (validate : PyVal -> string + A) : Checked A :=
  match args !! key with
  | None => inr default
  | Some v =>
      match validate v with
      | inr a => inr a
      | inl m => inl [ {| loc := key; msg := m |} ]
      end
  end.

Fixpoint join (sep : string) (l : list string) : string :=
  match l with
  | [] => ""
  | [x] => x
  | x :: l' => x ++ sep ++ join sep l'
  end.

(** ** Effects

    A computation takes the state of the world together with the log of
    the collaborator calls made so far, and gives back an outcome and the
    new state.  Logging through [logger] is not modelled. *)

Inductive Call : Type :=
| Fetch (url : string) (timeout : Z)
| Extract (html : string) (kw : Trafilatura.kwargs).

Record St (World : Type) : Type := { world : World; calls : list Call }.
Arguments world {World} s.
Arguments calls {World} s.
Arguments Build_St {World} world calls.

(** ** Stand-ins for the collaborators

    Concrete collaborators on which the model runs.  No theorem about the
    server depends on them. *)

Module Doubles.

(** The world counts the collaborator calls made. *)
Definition World : Type := nat.

Definition s0 : St World := {| world := 0%nat; calls := [] |}.

Definition in_range (lo hi : nat) (c : ascii) : bool :=
  let n := nat_of_ascii c in ((lo <=? n) && (n <=? hi))%nat.

Definition is_upper := in_range 65 90.
Definition is_alpha (c : ascii) : bool := is_upper c || in_range 97 122 c.
Definition is_digit := in_range 48 57.

Definition scheme_char (c : ascii) : bool :=
  is_alpha c || is_digit c
  || Ascii.eqb c "+" || Ascii.eqb c "-" || Ascii.eqb c ".".

Definition lower_char (c : ascii) : ascii :=
  if is_upper c then ascii_of_nat (nat_of_ascii c + 32) else c.

Fixpoint lower (s : string) : string :=
  match s with
  | String c s' => String (lower_char c) (lower s')
  | EmptyString => EmptyString
  end.

Fixpoint all_chars (p : ascii -> bool) (s : string) : bool :=
  match s with
  | String c s' => p c && all_chars p s'
  | EmptyString => true
  end.

(** The part before the first character satisfying [p], and the rest
    starting at that character. *)
Fixpoint break_at (p : ascii -> bool) (s : string) : string * string :=
  match s with
  | String c s' =>
      if p c then (EmptyString, s)
      else let '(a, b) := break_at p s' in (String c a, b)
  | EmptyString => (EmptyString, EmptyString)
  end.

Definition delimiter (c : ascii) : bool :=
  Ascii.eqb c "/" || Ascii.eqb c "?" || Ascii.eqb c "#".

(** A URL splitter after CPython's [urlsplit], for the scheme and the
    authority: the scheme is the lower-cased text before the first colon
    when that text starts with a letter and has only scheme characters;
    the authority follows a double slash and ends at the first of
    [/ ? #]; an unbalanced square bracket in it is an error. *)
Definition urlparse (u : string) : Outcome ParseResult :=
  let '(pre, rest) := break_at (Ascii.eqb ":") u in
  let '(sch, url1) :=
    match pre, rest with
    | String c _, String _ rest' =>
        if is_alpha c && all_chars scheme_char pre then (lower pre, rest') else ("", u)
    | _, _ => ("", u)
    end in
  match url1 with
  | String "/" (String "/" after) =>
      let '(net, _) := break_at delimiter after in
      if xorb (negb (all_chars (fun c => negb (Ascii.eqb c "[")) net))
              (negb (all_chars (fun c => negb (Ascii.eqb c "]")) net))
      then Raise (ValueError "Invalid IPv6 URL")
      else Ret {| scheme := sch; netloc := net |}
  | _ => Ret {| scheme := sch; netloc := "" |}
  end.

Definition http_get (url : string) (timeout : Z) (w : World) : Outcome string * World :=
  (Ret "<html><body><h1>T</h1><p>Body text.</p></body></html>", S w).

(** An engine that hands back its input, and one that finds nothing. *)
Definition extract_echo (html : string) (kw : Trafilatura.kwargs) (w : World)
    : Outcome (option string) * World := (Ret (Some html), S w).

Definition extract_nothing (html : string) (kw : Trafilatura.kwargs) (w : World)
    : Outcome (option string) * World := (Ret None, S w).

(** A network that times out, one that answers 404, and an engine that
    crashes. *)
Definition http_timeout (url : string) (timeout : Z) (w : World) : Outcome string * World :=
  (Raise (TimeoutException "timed out"), S w).

Definition http_404 (url : string) (timeout : Z) (w : World) : Outcome string * World :=
  (Raise (HTTPStatusError 404 "Client error '404 Not Found'"), S w).

Definition extract_crash (html : string) (kw : Trafilatura.kwargs) (w : World)
    : Outcome (option string) * World := (Raise (Exception "parser error"), S w).

Definition mcp_error_str (c : ErrorCode) (m : string) : string := m.

Definition validation_error_str (errs : list ErrorDetail) : string :=
  join "; " (map (fun e => loc e ++ ": " ++ msg e) errs).

Definition int_of_str (s : string) : option Z := None.
Definition bool_of_str (s : string) : option bool := None.

Definition valid_formats_iter : list string := ["markdown"; "txt"; "xml"].

End Doubles.

(** ** The server *)

Section Server.

(** The state of everything outside the process (network, clock, the
    engine's caches). *)
Variable World : Type.

(** [urllib.parse.urlparse]: pure, may raise. *)
Variable urlparse : string -> Outcome ParseResult.

(** One session of the HTTP client: GET with the given timeout, redirects
    followed, the fixed user agent, [raise_for_status], then
    [response.text]. *)
Variable http_get : string -> Z -> World -> Outcome string * World.

(** [trafilatura.extract]: formatted text, [None], or an exception. *)
Variable extract : string -> Trafilatura.kwargs -> World -> Outcome (option string) * World.

(** [str(e)] for the two exception classes declared by libraries. *)
Variable mcp_error_str : ErrorCode -> string -> string.
Variable validation_error_str : list ErrorDetail -> string.

(** pydantic's lax-mode readers of strings for [int] and [bool] fields. *)
Variable int_of_str : string -> option Z.
Variable bool_of_str : string -> option bool.

(** Iteration order of the set literal [{"markdown", "txt", "xml"}]. *)
Variable valid_formats_iter : list string.

(** [str(e)], which is also what an f-string renders. *)
Definition exn_str (e : exn) : string :=
  match e with
  | McpError c m => mcp_error_str c m
  | ValidationError errs => validation_error_str errs
  | ValueError m | TimeoutException m | HTTPStatusError _ m | Exception m => m
  end.

(** *** ExtractMarkdownInput *)

Definition validate_url (v : option string) : Outcome (option string) :=
  match v with
  | None => Ret None
  | Some u =>
      let body :=
        match urlparse u with
        | Raise e => Raise e
        | Ret result =>
            if negb (PyStr.truthy (scheme result)) || negb (PyStr.truthy (netloc result))
            then Raise (ValueError "URL must include scheme and netloc (e.g., https://example.com)")
            else if negb (String.eqb (scheme result) "http" || String.eqb (scheme result) "https")
            then Raise (ValueError "URL scheme must be http or https")
            else Ret (Some u)
        end in
      match body with
      | Ret r => Ret r
      | Raise e => Raise (ValueError ("Invalid URL format: " ++ exn_str e))
      end
  end.

Definition valid_formats : list string := ["markdown"; "txt"; "xml"].

Definition validate_output_format (v : string) : Outcome string :=
  if negb (existsb (String.eqb v) valid_formats)
  then Raise (ValueError ("Output format must be one of: " ++ join ", " valid_formats_iter))
  else Ret v.

Definition validate_input_source (self : ExtractMarkdownInput)
    : Outcome ExtractMarkdownInput :=
  let url_provided := VBool (PyStr.is_not_None (url self)) in
  (* [x is not None and x.strip()] is [False] or the stripped string *)
  let html_provided :=
    match html self with
    | None => VBool false
    | Some h => VStr (PyStr.strip h)
    end in
  if py_eq url_provided html_provided
  then Raise (ValueError "Provide exactly one of 'url' or 'html'")
  else Ret self.

(** A [ValueError] raised by a validator becomes an error line. *)
Definition after_validator {A} (o : Outcome A) : string + A :=
  match o with
  | Ret a => inr a
  | Raise e => inl ("Value error, " ++ exn_str e)
  end.

(** Field types, in pydantic's lax mode. *)
Definition optional_str (v : PyVal) : string + option string :=
  match v with
  | VNone => inr None
  | VStr s => inr (Some s)
  | _ => inl "Input should be a valid string"
  end.

Definition str_field (v : PyVal) : string + string :=
  match v with
  | VStr s => inr s
  | _ => inl "Input should be a valid string"
  end.

Definition bool_field (v : PyVal) : string + bool :=
  match v with
  | VBool b => inr b
  | VInt 0 => inr false
  | VInt 1 => inr true
  | VStr s =>
      match bool_of_str s with
      | Some b => inr b
      | None => inl "Input should be a valid boolean, unable to interpret input"
      end
  | _ => inl "Input should be a valid boolean"
  end.

Definition int_field (v : PyVal) : string + Z :=
  match v with
  | VInt z => inr z
  | VBool b => inr (Z.b2z b)
  | VStr s =>
      match int_of_str s with
      | Some z => inr z
      | None => inl "Input should be a valid integer, unable to parse string as an integer"
      end
  | _ => inl "Input should be a valid integer"
  end.

Definition url_field (v : PyVal) : string + option string :=
  match optional_str v with
  | inr o => after_validator (validate_url o)
  | inl m => inl m
  end.

(** [Field(ge=5, le=120)]. *)
Definition timeout_field (v : PyVal) : string + Z :=
  match int_field v with
  | inr z =>
      if z <? 5 then inl "Input should be greater than or equal to 5"
      else if 120 <? z then inl "Input should be less than or equal to 120"
      else inr z
  | inl m => inl m
  end.

Definition output_format_field (v : PyVal) : string + string :=
  match str_field v with
  | inr s => after_validator (validate_output_format s)
  | inl m => inl m
  end.

(** The fields, in declaration order; keys of the payload that name no
    field are never looked at (pydantic's default [extra='ignore']). *)
Definition validate_fields (args : gmap string PyVal) : Checked ExtractMarkdownInput :=
  inr Build_ExtractMarkdownInput
    <*> field args "url" None url_field
    <*> field args "html" None optional_str
    <*> field args "precision" true bool_field
    <*> field args "include_comments" false bool_field
    <*> field args "include_tables" true bool_field
    <*> field args "include_images" true bool_field
    <*> field args "include_links" true bool_field
    <*> field args "timeout" 30 timeout_field
    <*> field args "output_format" "markdown" output_format_field.

(** Construction of the model from the keyword arguments [args]. *)
Definition ExtractMarkdownInput_init (args : gmap string PyVal)
    : Outcome ExtractMarkdownInput :=
  match validate_fields args with
  | inl errs => Raise (ValidationError errs)
  | inr self =>
      match after_validator (validate_input_source self) with
      | inr self' => Ret self'
      | inl m => Raise (ValidationError [ {| loc := ""; msg := m |} ])
      end
  end.

(** *** The computation monad *)

Definition M (A : Type) : Type := St World -> Outcome A * St World.

Definition ret {A} (a : A) : M A := fun s => (Ret a, s).

Definition raise {A} (e : exn) : M A := fun s => (Raise e, s).

Definition bind {A B} (m : M A) (k : A -> M B) : M B :=
  fun s =>
    match m s with
    | (Ret a, s') => k a s'
    | (Raise e, s') => (Raise e, s')
    end.

(** [try: m  except ... as e: h e]; a handler that does not match the
    class of [e] re-raises it. *)
Definition try_except {A} (m : M A) (h : exn -> M A) : M A :=
  fun s =>
    match m s with
    | (Ret a, s') => (Ret a, s')
    | (Raise e, s') => h e s'
    end.

Definition lift {A} (o : Outcome A) : M A := fun s => (o, s).

Notation "'let*' x ':=' m 'in' k" := (bind m (fun x => k))
  (at level 10, x name, m at level 100, k at level 200, only parsing).

(** The two calls that leave the process. *)
Definition client_get (url : string) (timeout : Z) : M string :=
  fun s =>
    let '(r, w) := http_get url timeout (world s) in
    (r, {| world := w; calls := calls s ++ [Fetch url timeout] |}).

Definition run_extract (html : string) (kw : Trafilatura.kwargs) : M (option string) :=
  fun s =>
    let '(r, w) := extract html kw (world s) in
    (r, {| world := w; calls := calls s ++ [Extract html kw] |}).

(** *** fetch_url_async *)

Definition fetch_url_async (url : string) (timeout : Z) : M string :=
  try_except (client_get url timeout)
    (fun e =>
       match e with
       | TimeoutException _ =>
           raise (McpError INTERNAL_ERROR ("Timeout fetching URL: " ++ url))
       | HTTPStatusError status_code _ =>
           raise (McpError INTERNAL_ERROR
                    ("HTTP " ++ pretty status_code ++ " error fetching URL: " ++ url))
       | _ =>
           raise (McpError INTERNAL_ERROR ("Error fetching URL: " ++ exn_str e))
       end).

(** *** extract_content_async

    The engine runs on a worker and the coroutine resumes with its
    result; for this coroutine that is a call. *)

Definition extract_content_async (html output_format : string)
    (precision include_comments include_tables include_images include_links : bool)
    : M (option string) :=
  try_except
    (run_extract html
       {| Trafilatura.output_format := output_format;
          Trafilatura.favor_recall := negb precision;
          Trafilatura.include_comments := include_comments;
          Trafilatura.include_tables := include_tables;
          Trafilatura.include_images := include_images;
          Trafilatura.include_links := include_links |})
    (fun e => raise (McpError INTERNAL_ERROR ("Content extraction failed: " ++ exn_str e))).

(** *** extract_markdown_tool *)

(** [not s or not s.strip()] for an [Optional[str]]. *)
Definition nothing_in (o : option string) : bool :=
  negb (PyStr.truthy_opt o)
  || match o with
     | Some s => negb (PyStr.truthy (PyStr.strip s))
     | None => true
     end.

(** The block that resolves [html_content], with its check. *)
Definition get_html_content (input_data : ExtractMarkdownInput) : M string :=
  let* html_content :=
    match url input_data with
    | Some u =>
        if PyStr.truthy u
        then
          let* t := fetch_url_async u (timeout input_data) in
          ret (Some t)
        else ret (html input_data)
    | None => ret (html input_data)
    end in
  match html_content with
  | Some h =>
      if nothing_in html_content
      then raise (McpError INTERNAL_ERROR "No HTML content available for extraction")
      else ret h
  | None => raise (McpError INTERNAL_ERROR "No HTML content available for extraction")
  end.

Definition extract_markdown_tool (args : gmap string PyVal) : M (list TextContent) :=
  try_except
    (let* input_data :=
       try_except (lift (ExtractMarkdownInput_init args))
         (fun e => raise (McpError INVALID_PARAMS ("Invalid parameters: " ++ exn_str e))) in
     let* html_content := get_html_content input_data in
     let* extracted_content :=
       extract_content_async html_content
         (output_format input_data) (precision input_data)
         (include_comments input_data) (include_tables input_data)
         (include_images input_data) (include_links input_data) in
     match extracted_content with
     | Some c =>
         if nothing_in extracted_content
         then raise (McpError INTERNAL_ERROR
           "Trafilatura returned empty content. The page may not contain extractable text.")
         else ret [ {| type := "text"; text := PyStr.strip c |} ]
     | None => raise (McpError INTERNAL_ERROR
         "Trafilatura returned empty content. The page may not contain extractable text.")
     end)
    (fun e =>
       match e with
       | McpError _ _ => raise e
       | _ => raise (McpError INTERNAL_ERROR ("Unexpected error: " ++ exn_str e))
       end).

(** *** list_tools *)

Definition boolean_property (description : string) (default : bool) : Property :=
  {| p_type := JBoolean; p_description := description;
     p_default := Some (VBool default);
     p_minimum := None; p_maximum := None; p_enum := None |}.

Definition string_property (description : string) : Property :=
  {| p_type := JString; p_description := description; p_default := None;
     p_minimum := None; p_maximum := None; p_enum := None |}.

Definition list_tools : list Tool :=
  [ {| tool_name := "extract_markdown";
       tool_description :=
         "Extract main article content from web pages or HTML and return as "
         ++ "markdown, plain text, or XML. Uses Trafilatura's advanced content "
         ++ "extraction algorithms to identify and clean the main textual content "
         ++ "while filtering out navigation, ads, and boilerplate.";
       inputSchema :=
         {| properties :=
              [ ("url", string_property
                   "URL to fetch and extract content from (http/https only)");
                ("html", string_property "Raw HTML content to extract from");
                ("precision", boolean_property
                   "Favor precision over recall (default: true)" true);
                ("include_comments", boolean_property
                   "Include HTML comments in extracted content (default: false)" false);
                ("include_tables", boolean_property
                   "Include tables in extracted content (default: true)" true);
                ("include_images", boolean_property
                   "Include images in extracted content (default: true)" true);
                ("include_links", boolean_property
                   "Include links in extracted content (default: true)" true);
                ("timeout",
                   {| p_type := JInteger;
                      p_description :=
                        "Request timeout in seconds for URL fetching (5-120, default: 30)";
                      p_default := Some (VInt 30);
                      p_minimum := Some 5; p_maximum := Some 120; p_enum := None |});
                ("output_format",
                   {| p_type := JString;
                      p_description := "Output format (default: 'markdown')";
                      p_default := Some (VStr "markdown");
                      p_minimum := None; p_maximum := None;
                      p_enum := Some ["markdown"; "txt"; "xml"] |}) ];
            oneOf := [ ["url"]; ["html"] ];
            additionalProperties := false |} |} ].

(** The names the model declares as fields. *)
Definition field_names : list string :=
  ["url"; "html"; "precision"; "include_comments"; "include_tables";
   "include_images"; "include_links"; "timeout"; "output_format"].

(** *** call_tool *)

Definition call_tool (request : CallToolRequest) : M CallToolResult :=
  if negb (String.eqb (method request) "tools/call")
  then raise (McpError METHOD_NOT_FOUND ("Method not found: " ++ method request))
  else if negb (String.eqb (name (params request)) "extract_markdown")
  then raise (McpError INVALID_PARAMS ("Unknown tool: " ++ name (params request)))
  else
    try_except
      (let* content := extract_markdown_tool (default ∅ (arguments (params request))) in
       ret {| content := content; isError := false |})
      (fun e =>
         match e with
         | McpError _ _ =>
             ret {| content := [ {| type := "text"; text := exn_str e |} ]; isError := true |}
         | _ =>
             ret {| content := [ {| type := "text"; text := "Internal error: " ++ exn_str e |} ];
                    isError := true |}
         end).

(** Vocabulary of the statements: the keyword arguments the pipeline
    hands to the engine for a validated request, the request that calls
    the tool with a payload, and an engine result with nothing in it
    (absent, empty or all whitespace). *)
Definition kwargs_of (d : ExtractMarkdownInput) : Trafilatura.kwargs :=
  {| Trafilatura.output_format := output_format d;
     Trafilatura.favor_recall := negb (precision d);
     Trafilatura.include_comments := include_comments d;
     Trafilatura.include_tables := include_tables d;
     Trafilatura.include_images := include_images d;
     Trafilatura.include_links := include_links d |}.

Definition tool_call (tool : string) (args : gmap string PyVal) : CallToolRequest :=
  {| method := "tools/call";
     params := {| name := tool; arguments := Some args |} |}.

Definition no_text (r : option string) : Prop :=
  match r with
  | None => True
  | Some t => PyStr.blank t = true
  end.

(** The engine's answer is a function of the html and the options: the
    state of the world has no part in it. *)
Definition engine_deterministic : Prop :=
  forall h kw w w', fst (extract h kw w) = fst (extract h kw w').

(** The value of the attribute [k] of a constructed model, as a Python
    value; [None] for a name that is no attribute. *)
Definition attribute (d : ExtractMarkdownInput) (k : string) : option PyVal :=
  let opt (o : option string) :=
    match o with Some x => VStr x | None => VNone end in
  if String.eqb k "url" then Some (opt (url d))
  else if String.eqb k "html" then Some (opt (html d))
  else if String.eqb k "precision" then Some (VBool (precision d))
  else if String.eqb k "include_comments" then Some (VBool (include_comments d))
  else if String.eqb k "include_tables" then Some (VBool (include_tables d))
  else if String.eqb k "include_images" then Some (VBool (include_images d))
  else if String.eqb k "include_links" then Some (VBool (include_links d))
  else if String.eqb k "timeout" then Some (VInt (timeout d))
  else if String.eqb k "output_format" then Some (VStr (output_format d))
  else None.

(** A url the module accepts: it parses, with scheme [http] or [https]
    and a non-empty authority. *)
Definition http_url (u : string) : Prop :=
  exists r, urlparse u = Ret r
    /\ (scheme r = "http" \/ scheme r = "https") /\ netloc r <> "".

(** The first character, if there is one, is not whitespace. *)
Definition clean_head (s : string) : Prop :=
  match s with
  | String c _ => PyStr.isspace c = false
  | EmptyString => True
  end.

(** The state after one more collaborator call. *)
Definition after_call (s : St World) (w : World) (c : Call) : St World :=
  {| world := w; calls := calls s ++ [c] |}.

Definition error_result (message : string) : CallToolResult :=
  {| content := [ {| type := "text"; text := message |} ]; isError := true |}.

(** ** Properties *)

(** *** Strings *)

Lemma rev_app_empty (s acc : string) :
  String.rev_app s acc = "" -> s = "" /\ acc = "".
Proof.
  revert acc. induction s as [|c s IH]; intros acc H; simpl in H.
  - auto.
  - apply IH in H as [_ H]. discriminate.
Qed.

Lemma blank_rev_app (s acc : string) :
  PyStr.blank (String.rev_app s acc) = PyStr.blank s && PyStr.blank acc.
Proof.
  revert acc. induction s as [|c s IH]; intros acc; simpl.
  - reflexivity.
  - rewrite IH. simpl. destruct (PyStr.isspace c), (PyStr.blank s); reflexivity.
Qed.

Lemma lstrip_empty_iff (s : string) : PyStr.lstrip s = "" <-> PyStr.blank s = true.
Proof.
  induction s as [|c s IH]; simpl.
  - tauto.
  - destruct (PyStr.isspace c); simpl; [exact IH|]. split; discriminate.
Qed.

Lemma blank_lstrip (s : string) : PyStr.blank (PyStr.lstrip s) = PyStr.blank s.
Proof.
  induction s as [|c s IH]; simpl; [reflexivity|].
  destruct (PyStr.isspace c) eqn:E; simpl; [exact IH|]. now rewrite E.
Qed.

(** [s.strip()] is empty exactly when [s] has only whitespace. *)
Lemma strip_empty_iff (s : string) : PyStr.strip s = "" <-> PyStr.blank s = true.
Proof.
  unfold PyStr.strip, PyStr.rstrip, String.rev. split.
  - intros H. apply rev_app_empty in H as [H _].
    apply lstrip_empty_iff in H. rewrite blank_rev_app, andb_true_r in H.
    now rewrite blank_lstrip in H.
  - intros H. apply lstrip_empty_iff in H. now rewrite H.
Qed.

Lemma nothing_in_Some (t : string) : nothing_in (Some t) = PyStr.blank t.
Proof.
  unfold nothing_in, PyStr.truthy_opt, PyStr.truthy. rewrite !negb_involutive.
  destruct (PyStr.blank t) eqn:B.
  - apply strip_empty_iff in B. rewrite B. apply orb_true_r.
  - destruct (String.eqb_spec (PyStr.strip t) "") as [E|_].
    + apply strip_empty_iff in E. congruence.
    + destruct (String.eqb_spec t "") as [->|_]; [discriminate | reflexivity].
Qed.

(** *** Validation *)

Lemma ap_inr_inv {A B} (f : Checked (A -> B)) (x : Checked A) (b : B) :
  f <*> x = inr b -> exists g a, f = inr g /\ x = inr a /\ b = g a.
Proof.
  destruct f as [e|g], x as [e'|a]; simpl; intros H; try discriminate.
  injection H as <-. eauto.
Qed.

(** The fields validate to [d] exactly when each of them validates to the
    matching component of [d]. *)
Lemma validate_fields_inr (args : gmap string PyVal) (d : ExtractMarkdownInput) :
  validate_fields args = inr d <->
  field args "url" None url_field = inr (url d)
  /\ field args "html" None optional_str = inr (html d)
  /\ field args "precision" true bool_field = inr (precision d)
  /\ field args "include_comments" false bool_field = inr (include_comments d)
  /\ field args "include_tables" true bool_field = inr (include_tables d)
  /\ field args "include_images" true bool_field = inr (include_images d)
  /\ field args "include_links" true bool_field = inr (include_links d)
  /\ field args "timeout" 30 timeout_field = inr (timeout d)
  /\ field args "output_format" "markdown" output_format_field = inr (output_format d).
Proof.
  unfold validate_fields. split.
  - intros H.
    repeat match type of H with
    | _ <*> _ = inr _ =>
        let g := fresh "g" in let a := fresh "a" in
        let Hx := fresh "Hx" in
        apply ap_inr_inv in H as (g & a & H & Hx & ->)
    end.
    injection H as <-. simpl. repeat split; assumption.
  - intros (H1 & H2 & H3 & H4 & H5 & H6 & H7 & H8 & H9).
    rewrite H1, H2, H3, H4, H5, H6, H7, H8, H9. simpl. now destruct d.
Qed.

(** The model validator hands back the model it was given. *)
Lemma validate_input_source_self (d d' : ExtractMarkdownInput) :
  validate_input_source d = Ret d' -> d' = d.
Proof.
  unfold validate_input_source. destruct (py_eq _ _); intros H; [discriminate|].
  now injection H.
Qed.

(** The model validator reads the two sources only. *)
Lemma validate_input_source_sources (d d' : ExtractMarkdownInput) :
  url d = url d' -> html d = html d' ->
  returned (validate_input_source d) = returned (validate_input_source d').
Proof.
  unfold validate_input_source. intros -> ->. now destruct (py_eq _ _).
Qed.

Lemma init_Ret (args : gmap string PyVal) (d : ExtractMarkdownInput) :
  ExtractMarkdownInput_init args = Ret d <->
  validate_fields args = inr d /\ validate_input_source d = Ret d.
Proof.
  unfold ExtractMarkdownInput_init. split.
  - destruct (validate_fields args) as [errs|d0]; [discriminate|].
    destruct (validate_input_source d0) as [d1|e] eqn:V; simpl; [|discriminate].
    intros H. injection H as <-.
    apply validate_input_source_self in V as E. subst d1. auto.
  - intros [-> ->]. reflexivity.
Qed.

(** Construction fails with a [ValidationError] or not at all. *)
Lemma init_Raise (args : gmap string PyVal) (e : exn) :
  ExtractMarkdownInput_init args = Raise e -> exists errs, e = ValidationError errs.
Proof.
  unfold ExtractMarkdownInput_init.
  destruct (validate_fields args) as [errs|d0].
  - intros H. injection H as <-. eauto.
  - destruct (after_validator _); intros H; [|discriminate].
    injection H as <-. eauto.
Qed.

(** Two payloads that agree on the declared fields construct alike. *)
Lemma init_agree (args args' : gmap string PyVal) :
  (forall k, k ∈ field_names -> args' !! k = args !! k) ->
  ExtractMarkdownInput_init args' = ExtractMarkdownInput_init args.
Proof.
  intros H. unfold ExtractMarkdownInput_init, validate_fields, field.
  rewrite !H by (unfold field_names; set_solver). reflexivity.
Qed.

(** A payload without either source is rejected by the model validator
    whenever its fields pass. *)
Lemma neither_source_rejected (args : gmap string PyVal) :
  args !! "url" = None -> args !! "html" = None ->
  returned (ExtractMarkdownInput_init args) = false.
Proof.
  intros Hu Hh. destruct (ExtractMarkdownInput_init args) as [d|e] eqn:E; [|reflexivity].
  apply init_Ret in E as [F V]. apply validate_fields_inr in F as (F1 & F2 & _).
  unfold field in F1, F2. rewrite Hu in F1. rewrite Hh in F2.
  injection F1 as F1. injection F2 as F2.
  unfold validate_input_source in V. rewrite <- F1, <- F2 in V. discriminate.
Qed.

(** With both sources set the model validator compares a [bool] with a
    [str], which are never equal, and lets the model through. *)
Lemma validate_input_source_both (d : ExtractMarkdownInput) (u h : string) :
  url d = Some u -> html d = Some h -> validate_input_source d = Ret d.
Proof.
  unfold validate_input_source. now intros -> ->.
Qed.

Lemma field_insert_ne {A} (args : gmap string PyVal) (k k' : string) (v : PyVal)
    (default : A) (validate : PyVal -> string + A) :
  k' <> k -> field (<[k' := v]> args) k default validate = field args k default validate.
Proof. intros H. unfold field. now rewrite lookup_insert_ne. Qed.

Lemma field_delete_ne {A} (args : gmap string PyVal) (k k' : string)
    (default : A) (validate : PyVal -> string + A) :
  k' <> k -> field (delete k' args) k default validate = field args k default validate.
Proof. intros H. unfold field. now rewrite lookup_delete_ne. Qed.

Lemma timeout_field_int (z t : Z) :
  timeout_field (VInt z) = inr t <-> t = z /\ 5 <= z <= 120.
Proof.
  unfold timeout_field. simpl.
  destruct (Z.ltb_spec z 5), (Z.ltb_spec 120 z); split;
    try discriminate; try (intros [_ ?]; lia).
  - intros E. injection E as <-. split; [reflexivity | lia].
  - intros [-> _]. reflexivity.
Qed.

(** C10. A payload extended with keys that name no field of the model
    constructs exactly as the payload without them: same success, same
    field values, same failure; yet the schema that [list_tools]
    advertises says [additionalProperties: False]. *)
Theorem unknown_keys_ignored (args args' : gmap string PyVal) :
  args ⊆ args' ->
  (forall k, k ∈ dom args' -> k ∉ dom args -> k ∉ field_names) ->
  ExtractMarkdownInput_init args' = ExtractMarkdownInput_init args
  /\ Forall (fun t => additionalProperties (inputSchema t) = false) list_tools.
Proof.
  intros Hsub Hnew. split.
  - apply init_agree. intros k Hk.
    destruct (args !! k) as [v|] eqn:E.
    + exact (lookup_weaken _ _ _ _ E Hsub).
    + destruct (args' !! k) as [v'|] eqn:E'; [|reflexivity].
      exfalso. apply (Hnew k); [| |exact Hk].
      * apply elem_of_dom. eauto.
      * now apply not_elem_of_dom.
  - repeat constructor.
Qed.

(** C5. In a payload whose other fields validate, an integer [timeout]
    is accepted exactly when it lies in [5, 120], both ends included, and
    the constructed request then carries that value. *)
Theorem timeout_bounds (args : gmap string PyVal) (z : Z) :
  returned (ExtractMarkdownInput_init (delete "timeout" args)) = true ->
  (returned (ExtractMarkdownInput_init (<["timeout" := VInt z]> args)) = true
     <-> 5 <= z <= 120)
  /\ (forall d, ExtractMarkdownInput_init (<["timeout" := VInt z]> args) = Ret d ->
        timeout d = z).
Proof.
  destruct (ExtractMarkdownInput_init (delete "timeout" args)) as [d0|] eqn:E0;
    [intros _ | discriminate].
  apply init_Ret in E0 as [F0 V0].
  apply validate_fields_inr in F0 as (F1 & F2 & F3 & F4 & F5 & F6 & F7 & _ & F9).
  rewrite field_delete_ne in F1 by discriminate.
  rewrite field_delete_ne in F2 by discriminate.
  rewrite field_delete_ne in F3, F4, F5, F6, F7 by discriminate.
  rewrite field_delete_ne in F9 by discriminate.
  assert (Hfield : forall t, field (<["timeout" := VInt z]> args) "timeout" 30 timeout_field
                               = inr t <-> t = z /\ 5 <= z <= 120).
  { intros t. unfold field. rewrite lookup_insert_eq.
    rewrite <- timeout_field_int.
    destruct (timeout_field (VInt z)); split; intros E;
      first [discriminate E | injection E as ->; reflexivity]. }
  split; [split|].
  - destruct (ExtractMarkdownInput_init _) as [d|] eqn:E; [intros _ | discriminate].
    apply init_Ret in E as [F _].
    apply validate_fields_inr in F as (_ & _ & _ & _ & _ & _ & _ & F8 & _).
    now apply Hfield in F8.
  - intros Hz.
    pose (d1 := {| url := url d0; html := html d0; precision := precision d0;
                   include_comments := include_comments d0;
                   include_tables := include_tables d0;
                   include_images := include_images d0;
                   include_links := include_links d0;
                   timeout := z; output_format := output_format d0 |}).
    assert (E : ExtractMarkdownInput_init (<["timeout" := VInt z]> args) = Ret d1).
    { apply init_Ret. split.
      - apply validate_fields_inr.
        repeat split; simpl;
          try (rewrite field_insert_ne by discriminate; assumption).
        now apply Hfield.
      - pose proof (validate_input_source_sources d1 d0 eq_refl eq_refl) as R.
        rewrite V0 in R.
        destruct (validate_input_source d1) as [d|] eqn:V1; [|discriminate R].
        now apply validate_input_source_self in V1 as ->. }
    now rewrite E.
  - intros d E. apply init_Ret in E as [F _].
    apply validate_fields_inr in F as (_ & _ & _ & _ & _ & _ & _ & F8 & _).
    now apply Hfield in F8.
Qed.

(** C6. For a payload that supplies a url: when the parsed url has an
    empty scheme, an empty authority, or a scheme that is neither [http]
    nor [https], the url check and the whole validation fail; when the
    scheme is [http] or [https] and the authority is not empty, the url
    passes its check unchanged. *)
Theorem url_scheme_and_host (args : gmap string PyVal) (v : string) (r : ParseResult) :
  args !! "url" = Some (VStr v) ->
  urlparse v = Ret r ->
  (scheme r = "" \/ netloc r = "" \/ (scheme r <> "http" /\ scheme r <> "https") ->
     returned (validate_url (Some v)) = false
     /\ returned (ExtractMarkdownInput_init args) = false)
  /\ ((scheme r = "http" \/ scheme r = "https") -> netloc r <> "" ->
       validate_url (Some v) = Ret (Some v)
       /\ field args "url" None url_field = inr (Some v)).
Proof.
  intros Hu Hp. split.
  - intros Hbad.
    assert (Hv : returned (validate_url (Some v)) = false).
    { unfold validate_url. rewrite Hp. unfold PyStr.truthy.
      destruct (String.eqb_spec (scheme r) "") as [|Hs]; [reflexivity|].
      destruct (String.eqb_spec (netloc r) "") as [|Hn]; [reflexivity|].
      destruct (String.eqb_spec (scheme r) "http") as [|H1];
        [exfalso; destruct Hbad as [Hb|[Hb|[Hb1 Hb2]]]; congruence|].
      destruct (String.eqb_spec (scheme r) "https") as [|H2];
        [exfalso; destruct Hbad as [Hb|[Hb|[Hb1 Hb2]]]; congruence|].
      reflexivity. }
    split; [exact Hv|].
    destruct (ExtractMarkdownInput_init args) as [d|] eqn:E; [|reflexivity].
    apply init_Ret in E as [F _].
    apply validate_fields_inr in F as (F1 & _).
    unfold field in F1. rewrite Hu in F1.
    change (url_field (VStr v)) with (after_validator (validate_url (Some v))) in F1.
    destruct (validate_url (Some v)); [discriminate Hv | discriminate F1].
  - intros Hs Hn.
    assert (Hv : validate_url (Some v) = Ret (Some v)).
    { unfold validate_url. rewrite Hp. unfold PyStr.truthy.
      destruct (String.eqb_spec (netloc r) "") as [|_]; [contradiction|].
      destruct Hs as [-> | ->]; reflexivity. }
    split; [exact Hv|].
    unfold field. rewrite Hu.
    change (url_field (VStr v)) with (after_validator (validate_url (Some v))).
    now rewrite Hv.
Qed.

(** *** The pipeline *)

(** How [extract_markdown_tool] runs once the payload has validated. *)
Lemma extract_markdown_tool_valid (args : gmap string PyVal)
    (d : ExtractMarkdownInput) (s : St World) :
  ExtractMarkdownInput_init args = Ret d ->
  extract_markdown_tool args s =
    match get_html_content d s with
    | (Raise e, s1) =>
        (Raise match e with
               | McpError _ _ => e
               | _ => McpError INTERNAL_ERROR ("Unexpected error: " ++ exn_str e)
               end, s1)
    | (Ret h, s1) =>
        let '(r, w) := extract h (kwargs_of d) (world s1) in
        let s2 := {| world := w; calls := calls s1 ++ [Extract h (kwargs_of d)] |} in
        match r with
        | Raise e =>
            (Raise (McpError INTERNAL_ERROR ("Content extraction failed: " ++ exn_str e)), s2)
        | Ret None =>
            (Raise (McpError INTERNAL_ERROR
               "Trafilatura returned empty content. The page may not contain extractable text."),
             s2)
        | Ret (Some c) =>
            if nothing_in (Some c)
            then (Raise (McpError INTERNAL_ERROR
               "Trafilatura returned empty content. The page may not contain extractable text."),
                  s2)
            else (Ret [ {| type := "text"; text := PyStr.strip c |} ], s2)
        end
    end.
Proof.
  intros E. unfold extract_markdown_tool, try_except, bind, lift. rewrite E.
  destruct (get_html_content d s) as [[h|e] s1]; [|now destruct e].
  unfold extract_content_async, try_except, run_extract. fold (kwargs_of d).
  destruct (extract h (kwargs_of d) (world s1)) as [[[c|]|e] w]; try reflexivity.
  unfold raise, ret. now destruct (nothing_in (Some c)).
Qed.

(** The acquisition block never raises anything but an [McpError]. *)
Lemma get_html_content_inline (d : ExtractMarkdownInput) (s : St World) :
  url d = None ->
  get_html_content d s =
    (match html d with
     | Some h =>
         if PyStr.blank h
         then Raise (McpError INTERNAL_ERROR "No HTML content available for extraction")
         else Ret h
     | None => Raise (McpError INTERNAL_ERROR "No HTML content available for extraction")
     end, s).
Proof.
  intros U. unfold get_html_content, bind, ret, raise. rewrite U.
  destruct (html d) as [h|]; [|reflexivity].
  rewrite nothing_in_Some. now destruct (PyStr.blank h).
Qed.

(** How [extract_markdown_tool] runs when the payload does not validate. *)
Lemma extract_markdown_tool_invalid (args : gmap string PyVal) (s : St World) (e : exn) :
  ExtractMarkdownInput_init args = Raise e ->
  extract_markdown_tool args s
    = (Raise (McpError INVALID_PARAMS ("Invalid parameters: " ++ exn_str e)), s).
Proof.
  intros E. unfold extract_markdown_tool, try_except, bind, lift. now rewrite E.
Qed.

(** C8. When the payload fails validation, [extract_markdown_tool] ends
    with an invalid-parameters error and [call_tool] answers with the
    error flag set, and in both the state is the one they started from:
    no fetch and no extraction was attempted. *)
Theorem validation_failure_precedes_io (args : gmap string PyVal) (s : St World) (e : exn) :
  ExtractMarkdownInput_init args = Raise e ->
  extract_markdown_tool args s
    = (Raise (McpError INVALID_PARAMS ("Invalid parameters: " ++ exn_str e)), s)
  /\ call_tool (tool_call "extract_markdown" args) s
    = (Ret (error_result (mcp_error_str INVALID_PARAMS ("Invalid parameters: " ++ exn_str e))),
       s).
Proof.
  intros E. pose proof (extract_markdown_tool_invalid args s e E) as T.
  split; [exact T|].
  unfold call_tool, tool_call, try_except, bind. simpl. now rewrite T.
Qed.

(** C3, as the code has it. A [tools/call] request that names any tool
    other than [extract_markdown] makes [call_tool] raise
    [McpError(INVALID_PARAMS, "Unknown tool: <name>")]; no result value is
    returned, and the state is untouched whatever the arguments are. *)
Theorem unknown_tool_raises (request : CallToolRequest) (s : St World) :
  method request = "tools/call" ->
  name (params request) <> "extract_markdown" ->
  call_tool request s
    = (Raise (McpError INVALID_PARAMS ("Unknown tool: " ++ name (params request))), s).
Proof.
  intros Hm Hn. unfold call_tool. rewrite Hm. simpl.
  destruct (String.eqb_spec (name (params request)) "extract_markdown");
    [contradiction | reflexivity].
Qed.

(** C1, as the code has it. A [tools/call] request for [extract_markdown]
    always comes back as a result value: the error flag is off exactly
    when the pipeline returned, the content is then the pipeline's, and
    any exception of the pipeline is turned into one text item. *)
Theorem call_tool_returns (request : CallToolRequest) (s : St World) :
  method request = "tools/call" ->
  name (params request) = "extract_markdown" ->
  let run := extract_markdown_tool (default ∅ (arguments (params request))) s in
  exists r, call_tool request s = (Ret r, snd run)
    /\ isError r = negb (returned (fst run))
    /\ (forall c, fst run = Ret c -> content r = c)
    /\ (forall e, fst run = Raise e ->
          exists m, content r = [ {| type := "text"; text := m |} ]).
Proof.
  intros Hm Hn. unfold call_tool. rewrite Hm, Hn. simpl.
  unfold try_except, bind, ret.
  destruct (extract_markdown_tool _ s) as [[c|e] s1]; simpl.
  - eexists. split; [reflexivity|]. simpl.
    repeat split; [congruence | discriminate].
  - destruct e; eexists; (split; [reflexivity|]); simpl;
      repeat split; try discriminate; eauto.
Qed.

(** C4, as the code has it. For a request without url the acquisition
    block leaves the state as it was (no network call), whatever it
    returns is the supplied html itself, character for character, and it
    does return it whenever the html has a non-whitespace character. *)
Theorem inline_html_verbatim (d : ExtractMarkdownInput) (s : St World) :
  url d = None ->
  snd (get_html_content d s) = s
  /\ (forall h, fst (get_html_content d s) = Ret h -> html d = Some h)
  /\ (forall h, html d = Some h -> PyStr.blank h = false ->
        fst (get_html_content d s) = Ret h).
Proof.
  intros U. rewrite (get_html_content_inline d s U). simpl.
  repeat split.
  - intros h. destruct (html d) as [h'|]; [|discriminate].
    destruct (PyStr.blank h'); [discriminate|]. congruence.
  - intros h -> B. now rewrite B.
Qed.

(** C7. When the payload validates, html is acquired and the engine
    answers with nothing (no result, the empty string, or whitespace
    only), [extract_markdown_tool] raises the empty-content error and
    [call_tool] answers with the error flag set and that message. *)
Theorem empty_extraction_is_failure (args : gmap string PyVal) (s s1 : St World)
    (d : ExtractMarkdownInput) (h : string) (r : option string) (w : World) :
  ExtractMarkdownInput_init args = Ret d ->
  get_html_content d s = (Ret h, s1) ->
  extract h (kwargs_of d) (world s1) = (Ret r, w) ->
  no_text r ->
  let s2 := {| world := w; calls := calls s1 ++ [Extract h (kwargs_of d)] |} in
  let e := McpError INTERNAL_ERROR
    "Trafilatura returned empty content. The page may not contain extractable text." in
  extract_markdown_tool args s = (Raise e, s2)
  /\ call_tool (tool_call "extract_markdown" args) s
      = (Ret (error_result (exn_str e)), s2).
Proof.
  intros E G X N s2 e.
  assert (T : extract_markdown_tool args s = (Raise e, s2)).
  { rewrite (extract_markdown_tool_valid args d s E), G, X.
    destruct r as [c|]; [|reflexivity].
    rewrite nothing_in_Some. simpl in N. now rewrite N. }
  split; [exact T|].
  unfold call_tool, tool_call, try_except, bind. simpl. now rewrite T.
Qed.

(** A successful run of the pipeline never carries an empty text. *)
Lemma success_has_text (args : gmap string PyVal) (s s' : St World)
    (c : list TextContent) :
  extract_markdown_tool args s = (Ret c, s') ->
  exists t, c = [ {| type := "text"; text := t |} ] /\ t <> "".
Proof.
  destruct (ExtractMarkdownInput_init args) as [d|e] eqn:E.
  - rewrite (extract_markdown_tool_valid args d s E).
    destruct (get_html_content d s) as [[h|e] s1]; [|discriminate].
    destruct (extract h (kwargs_of d) (world s1)) as [[[t|]|e] w]; try discriminate.
    rewrite nothing_in_Some. destruct (PyStr.blank t) eqn:B; [discriminate|].
    intros H. injection H as <- _. eexists. split; [reflexivity|].
    intros Z. apply strip_empty_iff in Z. congruence.
  - unfold extract_markdown_tool, try_except, bind, lift. rewrite E. discriminate.
Qed.

(** *** Determinism *)

Lemma extract_content_async_outcome (html fmt : string) (p c t i l : bool)
    (s s' : St World) :
  engine_deterministic ->
  fst (extract_content_async html fmt p c t i l s)
  = fst (extract_content_async html fmt p c t i l s').
Proof.
  intros D. unfold extract_content_async, try_except, run_extract, raise.
  specialize (D html
    {| Trafilatura.output_format := fmt; Trafilatura.favor_recall := negb p;
       Trafilatura.include_comments := c; Trafilatura.include_tables := t;
       Trafilatura.include_images := i; Trafilatura.include_links := l |}
    (world s) (world s')).
  destruct (extract _ _ (world s)) as [[r|e] w],
           (extract _ _ (world s')) as [[r'|e'] w']; simpl in D;
    try discriminate D; now injection D as ->.
Qed.

Lemma extract_markdown_tool_inline_outcome (args : gmap string PyVal) (s s' : St World) :
  engine_deterministic ->
  args !! "url" = None ->
  fst (extract_markdown_tool args s) = fst (extract_markdown_tool args s').
Proof.
  intros D U. destruct (ExtractMarkdownInput_init args) as [d|e] eqn:E.
  - assert (Ud : url d = None).
    { apply init_Ret in E as [F _]. apply validate_fields_inr in F as (F1 & _).
      unfold field in F1. rewrite U in F1. now injection F1. }
    rewrite !(extract_markdown_tool_valid args d _ E).
    rewrite !(get_html_content_inline d _ Ud).
    destruct (html d) as [h|]; [|reflexivity].
    destruct (PyStr.blank h); [reflexivity|].
    specialize (D h (kwargs_of d) (world s) (world s')).
    destruct (extract _ _ (world s)) as [[r|e] w],
             (extract _ _ (world s')) as [[r'|e'] w']; simpl in D;
      try discriminate D; injection D as ->; [|reflexivity].
    destruct r' as [c|]; [|reflexivity]. now destruct (nothing_in (Some c)).
  - now rewrite !(extract_markdown_tool_invalid args _ e E).
Qed.

(** C9. With a deterministic engine, running the extraction a second
    time, in the state the first run left behind, gives the same
    outcome: for [extract_content_async] on the same html and options,
    and for the whole of [extract_markdown_tool] on the same payload with
    inline html. *)
Theorem extraction_idempotent :
  engine_deterministic ->
  (forall (html fmt : string) (p c t i l : bool) (s : St World),
     let first := extract_content_async html fmt p c t i l s in
     fst (extract_content_async html fmt p c t i l (snd first)) = fst first)
  /\ (forall (args : gmap string PyVal) (s : St World),
       args !! "url" = None ->
       let first := extract_markdown_tool args s in
       fst (extract_markdown_tool args (snd first)) = fst first).
Proof.
  intros D. split.
  - intros. now apply extract_content_async_outcome.
  - intros. now apply extract_markdown_tool_inline_outcome.
Qed.

(** ** Further properties of the module *)

(** *** Trimming *)

Lemma append_cons (c : ascii) (s t : string) : String c s ++ t = String c (s ++ t).
Proof. reflexivity. Qed.

Lemma append_empty_r (s : string) : s ++ "" = s.
Proof.
  induction s as [|c s IH]; [reflexivity|]. now rewrite append_cons, IH.
Qed.

Lemma append_assoc (a b c : string) : (a ++ b) ++ c = a ++ (b ++ c).
Proof.
  induction a as [|x a IH]; [reflexivity|]. now rewrite !append_cons, IH.
Qed.

Lemma rev_app_rev_app (s a b : string) :
  String.rev_app (String.rev_app s a) b = String.rev_app a (s ++ b).
Proof.
  revert a b. induction s as [|c s IH]; intros a b; [reflexivity|].
  simpl String.rev_app at 2. now rewrite IH.
Qed.

Lemma rev_rev (s : string) : String.rev (String.rev s) = s.
Proof.
  unfold String.rev. rewrite rev_app_rev_app.
  change (String.rev_app "" (s ++ "")) with (s ++ ""). apply append_empty_r.
Qed.

Lemma rev_app_append (s acc : string) :
  String.rev_app s acc = String.rev s ++ acc.
Proof.
  revert acc. induction s as [|c s IH]; intros acc; [reflexivity|].
  unfold String.rev. simpl. rewrite (IH (String c acc)), (IH (String c "")).
  now rewrite append_assoc.
Qed.

Lemma clean_head_lstrip (s : string) : clean_head (PyStr.lstrip s).
Proof.
  induction s as [|c s IH]; simpl; [exact I|].
  destruct (PyStr.isspace c) eqn:E; [exact IH | exact E].
Qed.

Lemma lstrip_clean (s : string) : clean_head s -> PyStr.lstrip s = s.
Proof. destruct s as [|c s]; simpl; [reflexivity|]. now intros ->. Qed.

(** Stripping on the left keeps a clean right end. *)
Lemma clean_last_lstrip (w : string) :
  clean_head (String.rev w) -> clean_head (String.rev (PyStr.lstrip w)).
Proof.
  induction w as [|c w IH]; [auto|]. simpl PyStr.lstrip.
  destruct (PyStr.isspace c) eqn:E; [|auto].
  change (String.rev (String c w)) with (String.rev_app w (String c "")).
  rewrite rev_app_append.
  destruct (String.rev w) as [|x r] eqn:R.
  - apply rev_app_empty in R as [-> _]. simpl. congruence.
  - rewrite append_cons. intros H. apply IH. exact H.
Qed.

(** [strip] leaves nothing more to strip. *)
Lemma strip_strip (s : string) : PyStr.strip (PyStr.strip s) = PyStr.strip s.
Proof.
  unfold PyStr.strip at 1. unfold PyStr.rstrip at 1.
  assert (L : PyStr.lstrip (PyStr.strip s) = PyStr.strip s).
  { apply lstrip_clean. unfold PyStr.strip, PyStr.rstrip.
    apply clean_last_lstrip. rewrite rev_rev. apply clean_head_lstrip. }
  rewrite L. unfold PyStr.strip, PyStr.rstrip. rewrite rev_rev.
  now rewrite (lstrip_clean _ (clean_head_lstrip _)).
Qed.

(** *** fetch_url_async and extract_content_async *)

(** X1. [fetch_url_async] makes exactly one request, hands back the text
    of a response as it is, and lets no exception out other than an
    [McpError] with code [INTERNAL_ERROR]. *)
Theorem fetch_url_async_classified (u : string) (t : Z) (s : St World) :
  snd (fetch_url_async u t s)
    = after_call s (snd (http_get u t (world s))) (Fetch u t)
  /\ (forall x, fst (http_get u t (world s)) = Ret x ->
        fst (fetch_url_async u t s) = Ret x)
  /\ (forall e, fst (fetch_url_async u t s) = Raise e ->
        exists m, e = McpError INTERNAL_ERROR m).
Proof.
  unfold fetch_url_async, try_except, client_get, raise, after_call.
  destruct (http_get u t (world s)) as [[x|e] w]; simpl.
  - repeat split; [congruence | discriminate].
  - destruct e; simpl; repeat split; try discriminate;
      intros e' E; injection E as <-; eauto.
Qed.

(** X2. The message of a failed fetch names its cause: a timeout gives
    "Timeout fetching URL: <url>", an HTTP error status gives
    "HTTP <status> error fetching URL: <url>" with the status in decimal,
    and any other exception gives "Error fetching URL: <its text>". *)
Theorem fetch_url_async_messages (u : string) (t : Z) (s : St World) (e : exn) :
  fst (http_get u t (world s)) = Raise e ->
  fst (fetch_url_async u t s)
  = Raise (McpError INTERNAL_ERROR
      match e with
      | TimeoutException _ => "Timeout fetching URL: " ++ u
      | HTTPStatusError status_code _ =>
          "HTTP " ++ pretty status_code ++ " error fetching URL: " ++ u
      | _ => "Error fetching URL: " ++ exn_str e
      end).
Proof.
  unfold fetch_url_async, try_except, client_get, raise.
  destruct (http_get u t (world s)) as [[x|e'] w]; simpl; [discriminate|].
  intros E. injection E as ->. now destruct e.
Qed.

(** X3. [extract_content_async] calls the engine exactly once, with
    [favor_recall] the negation of [precision] and the other options as
    given; the engine's result, [None] included, comes back unchanged,
    and an exception of the engine comes back as
    [McpError(INTERNAL_ERROR, "Content extraction failed: <its text>")]. *)
Theorem extract_content_async_classified (h fmt : string) (p c t i l : bool)
    (s : St World) :
  let kw := {| Trafilatura.output_format := fmt; Trafilatura.favor_recall := negb p;
               Trafilatura.include_comments := c; Trafilatura.include_tables := t;
               Trafilatura.include_images := i; Trafilatura.include_links := l |} in
  snd (extract_content_async h fmt p c t i l s)
    = after_call s (snd (extract h kw (world s))) (Extract h kw)
  /\ (forall r, fst (extract h kw (world s)) = Ret r ->
        fst (extract_content_async h fmt p c t i l s) = Ret r)
  /\ (forall e, fst (extract h kw (world s)) = Raise e ->
        fst (extract_content_async h fmt p c t i l s)
        = Raise (McpError INTERNAL_ERROR ("Content extraction failed: " ++ exn_str e))).
Proof.
  intros kw. unfold extract_content_async, try_except, run_extract, raise, after_call.
  fold kw. destruct (extract h kw (world s)) as [[r|e] w]; simpl;
    repeat split; try discriminate; intros ? E; now injection E as <-.
Qed.

(** *** The acquisition block on the url path *)

Lemma get_html_content_url (d : ExtractMarkdownInput) (u : string) (s : St World) :
  url d = Some u -> u <> "" ->
  get_html_content d s =
    let '(r, w) := http_get u (timeout d) (world s) in
    let s1 := after_call s w (Fetch u (timeout d)) in
    match r with
    | Ret x =>
        if PyStr.blank x
        then (Raise (McpError INTERNAL_ERROR "No HTML content available for extraction"), s1)
        else (Ret x, s1)
    | Raise e =>
        (Raise (McpError INTERNAL_ERROR
           match e with
           | TimeoutException _ => "Timeout fetching URL: " ++ u
           | HTTPStatusError status_code _ =>
               "HTTP " ++ pretty status_code ++ " error fetching URL: " ++ u
           | _ => "Error fetching URL: " ++ exn_str e
           end), s1)
    end.
Proof.
  intros U N. unfold get_html_content. rewrite U. unfold PyStr.truthy.
  destruct (String.eqb_spec u "") as [|_]; [contradiction|]. simpl.
  unfold bind at 1 2. unfold fetch_url_async, try_except, client_get, after_call.
  destruct (http_get u (timeout d) (world s)) as [[x|e] w].
  - unfold ret at 1. rewrite nothing_in_Some.
    now destruct (PyStr.blank x).
  - now destruct e.
Qed.

(** An empty url counts as no url. *)
Lemma get_html_content_empty_url (d : ExtractMarkdownInput) (s : St World) :
  url d = Some "" ->
  get_html_content d s =
    (match html d with
     | Some h =>
         if PyStr.blank h
         then Raise (McpError INTERNAL_ERROR "No HTML content available for extraction")
         else Ret h
     | None => Raise (McpError INTERNAL_ERROR "No HTML content available for extraction")
     end, s).
Proof.
  intros U. unfold get_html_content, bind, ret, raise. rewrite U. simpl.
  destruct (html d) as [h|]; [|reflexivity].
  rewrite nothing_in_Some. now destruct (PyStr.blank h).
Qed.

Lemma get_html_content_cases (d : ExtractMarkdownInput) (s : St World) :
  (snd (get_html_content d s) = s
   \/ exists u w, url d = Some u
        /\ snd (get_html_content d s) = after_call s w (Fetch u (timeout d)))
  /\ (forall h, fst (get_html_content d s) = Ret h -> PyStr.blank h = false)
  /\ (forall e, fst (get_html_content d s) = Raise e ->
        exists m, e = McpError INTERNAL_ERROR m).
Proof.
  assert (Inline : forall o : Outcome string,
    o = match html d with
        | Some h =>
            if PyStr.blank h
            then Raise (McpError INTERNAL_ERROR "No HTML content available for extraction")
            else Ret h
        | None => Raise (McpError INTERNAL_ERROR "No HTML content available for extraction")
        end ->
    (forall h, o = Ret h -> PyStr.blank h = false)
    /\ (forall e, o = Raise e -> exists m, e = McpError INTERNAL_ERROR m)).
  { intros o ->. destruct (html d) as [h|]; [destruct (PyStr.blank h) eqn:B|];
      split; intros ? E; try discriminate E; injection E as <-; eauto. }
  destruct (url d) as [u|] eqn:U.
  - destruct (String.eqb_spec u "") as [->|N].
    + rewrite (get_html_content_empty_url d s U). simpl.
      split; [now left | now apply Inline].
    + rewrite (get_html_content_url d u s U N).
      destruct (http_get u (timeout d) (world s)) as [[x|e] w]; simpl.
      * destruct (PyStr.blank x) eqn:B; simpl;
          (split; [right; eauto|]); split; intros ? E; try discriminate E;
          injection E as <-; eauto.
      * split; [right; eauto|]. split; intros ? E; [discriminate E|].
        injection E as <-. eauto.
  - rewrite (get_html_content_inline d s U). simpl.
    split; [now left | now apply Inline].
Qed.

(** What a run of the pipeline adds to the log of collaborator calls. *)
Lemma pipeline_calls_detail (args : gmap string PyVal) (s : St World) :
  exists l, calls (snd (extract_markdown_tool args s)) = (calls s ++ l)%list
    /\ (l = []
        \/ (exists d u, ExtractMarkdownInput_init args = Ret d /\ url d = Some u
              /\ l = [Fetch u (timeout d)])
        \/ (exists d h, ExtractMarkdownInput_init args = Ret d /\ PyStr.blank h = false
              /\ l = [Extract h (kwargs_of d)])
        \/ (exists d u h, ExtractMarkdownInput_init args = Ret d /\ url d = Some u
              /\ PyStr.blank h = false
              /\ l = [Fetch u (timeout d); Extract h (kwargs_of d)])).
Proof.
  destruct (ExtractMarkdownInput_init args) as [d|e] eqn:E.
  - rewrite (extract_markdown_tool_valid args d s E).
    destruct (get_html_content_cases d s) as (Hs & Hh & _).
    destruct (get_html_content d s) as [[h|e] s1]; simpl in Hs, Hh.
    + specialize (Hh h eq_refl).
      assert (C : forall o : Outcome (list TextContent) * St World,
        calls (snd o) = (calls s1 ++ [Extract h (kwargs_of d)])%list ->
        exists l, calls (snd o) = (calls s ++ l)%list
          /\ (l = []
              \/ (exists d0 u, Ret d = Ret d0 /\ url d0 = Some u
                    /\ l = [Fetch u (timeout d0)])
              \/ (exists d0 h0, Ret d = Ret d0 /\ PyStr.blank h0 = false
                    /\ l = [Extract h0 (kwargs_of d0)])
              \/ (exists d0 u h0, Ret d = Ret d0 /\ url d0 = Some u
                    /\ PyStr.blank h0 = false
                    /\ l = [Fetch u (timeout d0); Extract h0 (kwargs_of d0)]))).
      { intros o ->. destruct Hs as [-> | (u & w & U & ->)].
        - eexists. split; [reflexivity|]. right. right. left. eauto.
        - eexists. simpl. rewrite <- app_assoc. split; [reflexivity|].
          right. right. right. exists d, u, h. auto. }
      apply C.
      destruct (extract h (kwargs_of d) (world s1)) as [[[c|]|e] w]; try reflexivity.
      now destruct (nothing_in (Some c)).
    + simpl. destruct Hs as [-> | (u & w & U & ->)].
      * exists []. rewrite app_nil_r. auto.
      * eexists. split; [reflexivity|]. right. left. eauto.
  - rewrite (extract_markdown_tool_invalid args s e E). exists [].
    simpl. rewrite app_nil_r. auto.
Qed.

(** *** More on validation *)

Lemma field_insert_eq {A} (args : gmap string PyVal) (k : string) (v : PyVal)
    (default : A) (validate : PyVal -> string + A) :
  field (<[k := v]> args) k default validate
  = match validate v with
    | inr a => inr a
    | inl m => inl [ {| loc := k; msg := m |} ]
    end.
Proof. unfold field. now rewrite lookup_insert_eq. Qed.

Lemma field_delete_eq {A} (args : gmap string PyVal) (k : string)
    (default : A) (validate : PyVal -> string + A) :
  field (delete k args) k default validate = inr default.
Proof. unfold field. now rewrite lookup_delete_eq. Qed.

Lemma field_absent {A} (args : gmap string PyVal) (k : string)
    (default a : A) (validate : PyVal -> string + A) :
  args !! k = None -> field args k default validate = inr a -> a = default.
Proof. unfold field. intros ->. congruence. Qed.

Lemma field_inr {A} (args : gmap string PyVal) (k : string)
    (default a : A) (validate : PyVal -> string + A) :
  field args k default validate = inr a ->
  a = default \/ exists v, args !! k = Some v /\ validate v = inr a.
Proof.
  unfold field. destruct (args !! k) as [v|]; [|left; congruence].
  destruct (validate v) as [m|a'] eqn:V; [discriminate|].
  intros E. injection E as <-. right. eauto.
Qed.

Lemma validate_url_Ret (u : string) (x : option string) :
  validate_url (Some u) = Ret x -> x = Some u /\ http_url u.
Proof.
  unfold validate_url, http_url, PyStr.truthy.
  destruct (urlparse u) as [r|e]; [|discriminate].
  destruct (String.eqb_spec (scheme r) "") as [|_]; [discriminate|].
  destruct (String.eqb_spec (netloc r) "") as [|Hn]; [discriminate|]. simpl.
  destruct (String.eqb_spec (scheme r) "http") as [H1|_]; simpl.
  - intros E. injection E as <-. eauto 6.
  - destruct (String.eqb_spec (scheme r) "https") as [H2|_]; [|discriminate].
    intros E. injection E as <-. eauto 6.
Qed.

Lemma init_timeout_range (args : gmap string PyVal) (d : ExtractMarkdownInput) :
  ExtractMarkdownInput_init args = Ret d -> 5 <= timeout d <= 120.
Proof.
  intros E. apply init_Ret in E as [F _].
  apply validate_fields_inr in F as (_ & _ & _ & _ & _ & _ & _ & F8 & _).
  apply field_inr in F8 as [-> | (v & _ & V)]; [lia|].
  unfold timeout_field in V. destruct (int_field v) as [|z]; [discriminate|].
  destruct (Z.ltb_spec z 5); [discriminate|].
  destruct (Z.ltb_spec 120 z); [discriminate|]. injection V as <-. lia.
Qed.

Lemma init_url_http (args : gmap string PyVal) (d : ExtractMarkdownInput) (u : string) :
  ExtractMarkdownInput_init args = Ret d -> url d = Some u -> http_url u.
Proof.
  intros E U. apply init_Ret in E as [F _].
  apply validate_fields_inr in F as (F1 & _). rewrite U in F1.
  apply field_inr in F1 as [? | (v & _ & V)]; [discriminate|].
  destruct v as [| | |w|]; try (simpl in V; discriminate V).
  change (after_validator (validate_url (Some w)) = inr (Some u)) in V.
  destruct (validate_url (Some w)) as [x|] eqn:R; [|discriminate].
  apply validate_url_Ret in R as [-> R]. simpl in V. now injection V as <-.
Qed.

(** X4. Every model that gets constructed is well formed: its timeout
    lies in [5, 120], its output format is one of markdown, txt and xml,
    its url, when it has one, parses with scheme http or https and a
    non-empty authority, and it has a url or an html. *)
Theorem constructed_model_invariant (args : gmap string PyVal) (d : ExtractMarkdownInput) :
  ExtractMarkdownInput_init args = Ret d ->
  5 <= timeout d <= 120
  /\ In (output_format d) ["markdown"; "txt"; "xml"]
  /\ (forall u, url d = Some u -> http_url u)
  /\ (url d = None -> exists h, html d = Some h).
Proof.
  intros E. split; [exact (init_timeout_range args d E)|].
  split; [|split; [intros u; exact (init_url_http args d u E)|]].
  - apply init_Ret in E as [F _].
    apply validate_fields_inr in F as (_ & _ & _ & _ & _ & _ & _ & _ & F9).
    apply field_inr in F9 as [-> | (v & _ & V)]; [now left|].
    destruct v as [| | |w|]; try (simpl in V; discriminate V).
    unfold output_format_field, str_field, validate_output_format, valid_formats in V.
    simpl in V.
    destruct (String.eqb_spec w "markdown") as [Hw|_]; simpl in V;
      [injection V as <-; now left|].
    destruct (String.eqb_spec w "txt") as [Hw|_]; simpl in V;
      [injection V as <-; right; now left|].
    destruct (String.eqb_spec w "xml") as [Hw|_]; simpl in V;
      [injection V as <-; right; right; now left | discriminate].
  - intros U. apply init_Ret in E as [_ V].
    unfold validate_input_source in V. rewrite U in V.
    destruct (html d) as [h|]; [eauto | discriminate].
Qed.

(** X5. An option left out of the payload takes its declared default:
    precision, tables, images and links on, comments off, a timeout of 30
    seconds, markdown output, and no url or html. *)
Theorem omitted_fields_take_defaults (args : gmap string PyVal) (d : ExtractMarkdownInput) :
  ExtractMarkdownInput_init args = Ret d ->
  (args !! "url" = None -> url d = None)
  /\ (args !! "html" = None -> html d = None)
  /\ (args !! "precision" = None -> precision d = true)
  /\ (args !! "include_comments" = None -> include_comments d = false)
  /\ (args !! "include_tables" = None -> include_tables d = true)
  /\ (args !! "include_images" = None -> include_images d = true)
  /\ (args !! "include_links" = None -> include_links d = true)
  /\ (args !! "timeout" = None -> timeout d = 30)
  /\ (args !! "output_format" = None -> output_format d = "markdown").
Proof.
  intros E. apply init_Ret in E as [F _].
  apply validate_fields_inr in F as (F1 & F2 & F3 & F4 & F5 & F6 & F7 & F8 & F9).
  repeat split; intros A; eapply field_absent; eassumption.
Qed.

(** X6. A url or html given as JSON null counts as not given. *)
Theorem null_source_is_absent (args : gmap string PyVal) :
  ExtractMarkdownInput_init (<["url" := VNone]> args)
    = ExtractMarkdownInput_init (delete "url" args)
  /\ ExtractMarkdownInput_init (<["html" := VNone]> args)
    = ExtractMarkdownInput_init (delete "html" args).
Proof.
  split; unfold ExtractMarkdownInput_init, validate_fields.
  - rewrite field_insert_eq, field_delete_eq.
    rewrite !(field_insert_ne _ _ "url") by discriminate.
    rewrite !(field_delete_ne _ _ "url") by discriminate.
    reflexivity.
  - rewrite (field_insert_ne _ "url" "html") by discriminate.
    rewrite (field_delete_ne _ "url" "html") by discriminate.
    rewrite field_insert_eq, field_delete_eq.
    rewrite !(field_insert_ne _ _ "html") by discriminate.
    rewrite !(field_delete_ne _ _ "html") by discriminate.
    reflexivity.
Qed.

Lemma output_format_field_str (f g : string) :
  output_format_field (VStr f) = inr g <-> g = f /\ In f ["markdown"; "txt"; "xml"].
Proof.
  unfold output_format_field, str_field, validate_output_format, valid_formats. simpl.
  destruct (String.eqb_spec f "markdown") as [H1|H1]; simpl.
  { split; [intros E; injection E as <-; auto | intros [-> _]; reflexivity]. }
  destruct (String.eqb_spec f "txt") as [H2|H2]; simpl.
  { split; [intros E; injection E as <-; auto | intros [-> _]; reflexivity]. }
  destruct (String.eqb_spec f "xml") as [H3|H3]; simpl.
  { split; [intros E; injection E as <-; auto 6 | intros [-> _]; reflexivity]. }
  split; [discriminate|]. intros [_ [H|[H|[H|[]]]]]; congruence.
Qed.

(** X7. In a payload whose other fields validate, a string
    [output_format] is accepted exactly when it is one of markdown, txt
    and xml (case and spelling as written), and the constructed model
    then carries it. *)
Theorem output_format_accepted (args : gmap string PyVal) (f : string) :
  returned (ExtractMarkdownInput_init (delete "output_format" args)) = true ->
  (returned (ExtractMarkdownInput_init (<["output_format" := VStr f]> args)) = true
     <-> In f ["markdown"; "txt"; "xml"])
  /\ (forall d, ExtractMarkdownInput_init (<["output_format" := VStr f]> args) = Ret d ->
        output_format d = f).
Proof.
  destruct (ExtractMarkdownInput_init (delete "output_format" args)) as [d0|] eqn:E0;
    [intros _ | discriminate].
  apply init_Ret in E0 as [F0 V0].
  apply validate_fields_inr in F0 as (F1 & F2 & F3 & F4 & F5 & F6 & F7 & F8 & _).
  rewrite field_delete_ne in F1 by discriminate.
  rewrite field_delete_ne in F2 by discriminate.
  rewrite field_delete_ne in F3, F4, F5, F6, F7 by discriminate.
  rewrite field_delete_ne in F8 by discriminate.
  assert (Hfield : forall g,
    field (<["output_format" := VStr f]> args) "output_format" "markdown"
      output_format_field = inr g <-> g = f /\ In f ["markdown"; "txt"; "xml"]).
  { intros g. rewrite field_insert_eq, <- output_format_field_str.
    destruct (output_format_field (VStr f)); split; intros E;
      first [discriminate E | injection E as ->; reflexivity]. }
  split; [split|].
  - destruct (ExtractMarkdownInput_init _) as [d|] eqn:E; [intros _ | discriminate].
    apply init_Ret in E as [F _].
    apply validate_fields_inr in F as (_ & _ & _ & _ & _ & _ & _ & _ & F9).
    now apply Hfield in F9.
  - intros Hf.
    pose (d1 := {| url := url d0; html := html d0; precision := precision d0;
                   include_comments := include_comments d0;
                   include_tables := include_tables d0;
                   include_images := include_images d0;
                   include_links := include_links d0;
                   timeout := timeout d0; output_format := f |}).
    assert (E : ExtractMarkdownInput_init (<["output_format" := VStr f]> args) = Ret d1).
    { apply init_Ret. split.
      - apply validate_fields_inr.
        repeat split; simpl;
          try (rewrite field_insert_ne by discriminate; assumption).
        now apply Hfield.
      - pose proof (validate_input_source_sources d1 d0 eq_refl eq_refl) as R.
        rewrite V0 in R.
        destruct (validate_input_source d1) as [d|] eqn:V1; [|discriminate R].
        now apply validate_input_source_self in V1 as ->. }
    now rewrite E.
  - intros d E. apply init_Ret in E as [F _].
    apply validate_fields_inr in F as (_ & _ & _ & _ & _ & _ & _ & _ & F9).
    now apply Hfield in F9.
Qed.

(** X8. The schema that [list_tools] advertises and the model agree on
    the fields: the schema lists exactly the model's fields, in the same
    order, and for every field left out of a payload the constructed
    model holds the default the schema announces for it. *)
Theorem schema_agrees_with_model (t : Tool) :
  In t list_tools ->
  map fst (properties (inputSchema t)) = field_names
  /\ (forall args d k p v,
        ExtractMarkdownInput_init args = Ret d ->
        args !! k = None ->
        In (k, p) (properties (inputSchema t)) ->
        p_default p = Some v ->
        attribute d k = Some v).
Proof.
  intros [<- | []]. split; [reflexivity|].
  intros args d k p v E A Hin Hd.
  apply init_Ret in E as [F _].
  apply validate_fields_inr in F as (F1 & F2 & F3 & F4 & F5 & F6 & F7 & F8 & F9).
  simpl in Hin.
  repeat (destruct Hin as [Hin | Hin];
    [injection Hin as <- <-; simpl in Hd; try discriminate Hd;
     injection Hd as <-; unfold attribute; simpl; do 2 f_equal;
     eapply field_absent; eassumption |]).
  contradiction.
Qed.

(** *** More on the pipeline *)


(** A run that returns, returns one text item: the trimmed form of an
    engine result with something in it. *)
Lemma extract_markdown_tool_return_form (args : gmap string PyVal) (s s' : St World)
    (c : list TextContent) :
  extract_markdown_tool args s = (Ret c, s') ->
  exists x, c = [ {| type := "text"; text := PyStr.strip x |} ] /\ PyStr.blank x = false.
Proof.
  destruct (ExtractMarkdownInput_init args) as [d|e] eqn:E.
  - rewrite (extract_markdown_tool_valid args d s E).
    destruct (get_html_content d s) as [[h|e] s1]; [|discriminate].
    destruct (extract h (kwargs_of d) (world s1)) as [[[t|]|e] w]; try discriminate.
    rewrite nothing_in_Some. destruct (PyStr.blank t) eqn:B; [discriminate|].
    intros H. injection H as <- _. eauto.
  - rewrite (extract_markdown_tool_invalid args s e E). discriminate.
Qed.


(** X10. One run of the pipeline makes at most one fetch and at most one
    extraction, the fetch first: nothing is retried. *)
Theorem pipeline_calls_at_most_once (args : gmap string PyVal) (s : St World) :
  exists l, calls (snd (extract_markdown_tool args s)) = (calls s ++ l)%list
    /\ (l = [] \/ (exists u t, l = [Fetch u t]) \/ (exists h kw, l = [Extract h kw])
        \/ (exists u t h kw, l = [Fetch u t; Extract h kw])).
Proof.
  destruct (pipeline_calls_detail args s)
    as (l & C & [-> | [(d & u & _ & _ & ->) | [(d & h & _ & _ & ->)
                | (d & u & h & _ & _ & _ & ->)]]]);
    eexists; (split; [exact C|]); eauto 10.
Qed.

(** X11. The engine is never handed empty or whitespace-only html. *)
Theorem engine_never_gets_blank_html (args : gmap string PyVal) (s : St World) :
  exists l, calls (snd (extract_markdown_tool args s)) = (calls s ++ l)%list
    /\ forall h kw, In (Extract h kw) l -> PyStr.blank h = false.
Proof.
  destruct (pipeline_calls_detail args s)
    as (l & C & [-> | [(d & u & _ & _ & ->) | [(d & h & _ & B & ->)
                | (d & u & h & _ & _ & B & ->)]]]);
    eexists; (split; [exact C|]); intros h' kw' Hin; simpl in Hin;
    repeat (destruct Hin as [Hin|Hin]); try contradiction; try discriminate Hin;
    now injection Hin as <- _.
Qed.

(** X12. Every fetch the pipeline makes goes to a url that parses with
    scheme http or https and a non-empty authority, with a timeout
    between 5 and 120 seconds. *)
Theorem pipeline_fetches_only_http (args : gmap string PyVal) (s : St World) :
  exists l, calls (snd (extract_markdown_tool args s)) = (calls s ++ l)%list
    /\ forall u t, In (Fetch u t) l -> http_url u /\ 5 <= t <= 120.
Proof.
  destruct (pipeline_calls_detail args s)
    as (l & C & [-> | [(d & u & E & U & ->) | [(d & h & _ & _ & ->)
                | (d & u & h & E & U & _ & ->)]]]);
    eexists; (split; [exact C|]); intros u' t' Hin; simpl in Hin;
    repeat (destruct Hin as [Hin|Hin]); try contradiction; try discriminate Hin;
    injection Hin as <- <-;
    (split; [exact (init_url_http args d u E U) | exact (init_timeout_range args d E)]).
Qed.

(** X13. With a url in the request, the html field plays no part in the
    acquisition: two requests with the same url and timeout acquire
    alike. *)
Theorem url_takes_precedence (d d' : ExtractMarkdownInput) (u : string) (s : St World) :
  url d = Some u -> u <> "" ->
  url d' = Some u -> timeout d' = timeout d ->
  get_html_content d' s = get_html_content d s.
Proof.
  intros U N U' T.
  rewrite (get_html_content_url d u s U N), (get_html_content_url d' u s U' N).
  now rewrite T.
Qed.

(** X14. A fetch that fails ends the call: the pipeline raises an
    internal error, the log has the one fetch and no extraction, and
    [call_tool] answers with the error flag set. *)
Theorem failed_fetch_ends_call (args : gmap string PyVal) (d : ExtractMarkdownInput)
    (u : string) (s : St World) (e : exn) (w : World) :
  ExtractMarkdownInput_init args = Ret d ->
  url d = Some u -> u <> "" ->
  http_get u (timeout d) (world s) = (Raise e, w) ->
  exists m,
    extract_markdown_tool args s
      = (Raise (McpError INTERNAL_ERROR m), after_call s w (Fetch u (timeout d)))
    /\ call_tool (tool_call "extract_markdown" args) s
      = (Ret (error_result (mcp_error_str INTERNAL_ERROR m)),
         after_call s w (Fetch u (timeout d))).
Proof.
  intros E U N H.
  assert (T : exists m, extract_markdown_tool args s
      = (Raise (McpError INTERNAL_ERROR m), after_call s w (Fetch u (timeout d)))).
  { rewrite (extract_markdown_tool_valid args d s E),
            (get_html_content_url d u s U N), H. simpl. eauto. }
  destruct T as [m T]. exists m. split; [exact T|].
  unfold call_tool, tool_call, try_except, bind. simpl. now rewrite T.
Qed.

(** X15. A fetched page that is empty or whitespace only is reported as
    "No HTML content available for extraction", and so is a blank inline
    html; in either case the engine is not called. *)
Theorem blank_content_is_reported (args : gmap string PyVal) (d : ExtractMarkdownInput)
    (s : St World) :
  ExtractMarkdownInput_init args = Ret d ->
  (forall u x w, url d = Some u -> u <> "" ->
     http_get u (timeout d) (world s) = (Ret x, w) -> PyStr.blank x = true ->
     extract_markdown_tool args s
     = (Raise (McpError INTERNAL_ERROR "No HTML content available for extraction"),
        after_call s w (Fetch u (timeout d))))
  /\ (forall h, url d = None -> html d = Some h -> PyStr.blank h = true ->
       extract_markdown_tool args s
       = (Raise (McpError INTERNAL_ERROR "No HTML content available for extraction"), s)).
Proof.
  intros E. split.
  - intros u x w U N H B.
    rewrite (extract_markdown_tool_valid args d s E),
            (get_html_content_url d u s U N), H. simpl. now rewrite B.
  - intros h U H B.
    rewrite (extract_markdown_tool_valid args d s E),
            (get_html_content_inline d s U), H, B. reflexivity.
Qed.

(** X16. The url path end to end: a request with a url, a page with
    text in it and an engine that finds text give the engine's text,
    trimmed, after one fetch of that url with the request's timeout and
    one extraction of the page as fetched with the request's options. *)
Theorem url_path_success (args : gmap string PyVal) (d : ExtractMarkdownInput)
    (u x c : string) (s : St World) (w1 w2 : World) :
  ExtractMarkdownInput_init args = Ret d ->
  url d = Some u -> u <> "" ->
  http_get u (timeout d) (world s) = (Ret x, w1) -> PyStr.blank x = false ->
  extract x (kwargs_of d) w1 = (Ret (Some c), w2) -> PyStr.blank c = false ->
  extract_markdown_tool args s
  = (Ret [ {| type := "text"; text := PyStr.strip c |} ],
     {| world := w2;
        calls := calls s ++ [Fetch u (timeout d); Extract x (kwargs_of d)] |}).
Proof.
  intros E U N H Bx X Bc.
  rewrite (extract_markdown_tool_valid args d s E),
          (get_html_content_url d u s U N), H. simpl. rewrite Bx. simpl.
  rewrite X, nothing_in_Some, Bc. simpl. now rewrite <- app_assoc.
Qed.

(** X17. The inline path end to end: a request with html only, not
    blank, and an engine that finds text give the engine's text,
    trimmed, after one extraction of the html as supplied and no fetch. *)
Theorem inline_path_success (args : gmap string PyVal) (d : ExtractMarkdownInput)
    (h c : string) (s : St World) (w : World) :
  ExtractMarkdownInput_init args = Ret d ->
  url d = None -> html d = Some h -> PyStr.blank h = false ->
  extract h (kwargs_of d) (world s) = (Ret (Some c), w) -> PyStr.blank c = false ->
  extract_markdown_tool args s
  = (Ret [ {| type := "text"; text := PyStr.strip c |} ],
     after_call s w (Extract h (kwargs_of d))).
Proof.
  intros E U H Bh X Bc.
  rewrite (extract_markdown_tool_valid args d s E),
          (get_html_content_inline d s U), H, Bh, X, nothing_in_Some, Bc.
  reflexivity.
Qed.

(** X18. An engine that raises ends the call with
    "Content extraction failed: <its text>", as an internal error from
    the pipeline and as an error result from [call_tool]. *)
Theorem engine_fault_is_reported (args : gmap string PyVal) (d : ExtractMarkdownInput)
    (h : string) (s s1 : St World) (e : exn) (w : World) :
  ExtractMarkdownInput_init args = Ret d ->
  get_html_content d s = (Ret h, s1) ->
  extract h (kwargs_of d) (world s1) = (Raise e, w) ->
  let failure := McpError INTERNAL_ERROR ("Content extraction failed: " ++ exn_str e) in
  extract_markdown_tool args s
    = (Raise failure, after_call s1 w (Extract h (kwargs_of d)))
  /\ call_tool (tool_call "extract_markdown" args) s
    = (Ret (error_result (exn_str failure)), after_call s1 w (Extract h (kwargs_of d))).
Proof.
  intros E G X failure.
  assert (T : extract_markdown_tool args s
    = (Raise failure, after_call s1 w (Extract h (kwargs_of d)))).
  { now rewrite (extract_markdown_tool_valid args d s E), G, X. }
  split; [exact T|].
  unfold call_tool, tool_call, try_except, bind. simpl. now rewrite T.
Qed.

(** *** More on call_tool *)

(** X19. A request whose method is not [tools/call] makes [call_tool]
    raise [McpError(METHOD_NOT_FOUND, "Method not found: <method>")],
    whatever tool it names and whatever its arguments, and nothing
    runs. *)
Theorem unknown_method_raises (request : CallToolRequest) (s : St World) :
  method request <> "tools/call" ->
  call_tool request s
  = (Raise (McpError METHOD_NOT_FOUND ("Method not found: " ++ method request)), s).
Proof.
  intros Hm. unfold call_tool.
  destruct (String.eqb_spec (method request) "tools/call");
    [contradiction | reflexivity].
Qed.

(** X20. A result of [call_tool] without the error flag holds exactly
    one item, of type text, whose text is not empty and has no
    whitespace at either end. *)
Theorem success_payload_is_trimmed (request : CallToolRequest) (s s' : St World)
    (r : CallToolResult) :
  call_tool request s = (Ret r, s') ->
  isError r = false ->
  exists t, content r = [ {| type := "text"; text := t |} ]
    /\ t <> "" /\ PyStr.strip t = t.
Proof.
  unfold call_tool.
  destruct (negb (String.eqb (method request) "tools/call")); [discriminate|].
  destruct (negb (String.eqb (name (params request)) "extract_markdown"));
    [discriminate|].
  unfold try_except, bind, ret.
  destruct (extract_markdown_tool _ s) as [[c|e] s1] eqn:T.
  - apply extract_markdown_tool_return_form in T as (x & -> & B).
    intros H _. injection H as <- _. simpl. eexists. split; [reflexivity|].
    split; [|apply strip_strip].
    intros Z. apply strip_empty_iff in Z. congruence.
  - destruct e; intros H; injection H as <- _; discriminate.
Qed.

(** X21. A call of [extract_markdown] that supplies neither a url nor
    html, or no arguments at all, is answered with an error result and
    nothing runs; without any arguments the text is the invalid
    parameters message for the exactly-one-of violation. *)
Theorem missing_sources_are_rejected (request : CallToolRequest) (s : St World) :
  method request = "tools/call" ->
  name (params request) = "extract_markdown" ->
  (forall args, arguments (params request) = Some args ->
     args !! "url" = None /\ args !! "html" = None) ->
  (exists r, call_tool request s = (Ret r, s) /\ isError r = true)
  /\ (arguments (params request) = None ->
       call_tool request s
       = (Ret (error_result (mcp_error_str INVALID_PARAMS
            ("Invalid parameters: " ++ validation_error_str
               [ {| loc := "";
                    msg := "Value error, Provide exactly one of 'url' or 'html'" |} ]))),
          s)).
Proof.
  intros Hm Hn Ha. unfold call_tool. rewrite Hm, Hn. simpl.
  unfold try_except, bind, ret.
  assert (N : forall args : gmap string PyVal,
    args !! "url" = None -> args !! "html" = None ->
    exists e, ExtractMarkdownInput_init args = Raise e).
  { intros args U H. pose proof (neither_source_rejected args U H) as R.
    destruct (ExtractMarkdownInput_init args) as [|e]; [discriminate | eauto]. }
  split.
  - destruct (N (default ∅ (arguments (params request)))) as [e E].
    { destruct (arguments (params request)) as [a|]; [now apply Ha | reflexivity]. }
    { destruct (arguments (params request)) as [a|]; [now apply Ha | reflexivity]. }
    rewrite (extract_markdown_tool_invalid _ s e E). eauto.
  - intros ->. simpl.
    rewrite (extract_markdown_tool_invalid ∅ s
      (ValidationError [ {| loc := "";
         msg := "Value error, Provide exactly one of 'url' or 'html'" |} ])); reflexivity.
Qed.

End Server.

(** ** The server on the stand-in collaborators *)

Abbreviation D_init :=
  (ExtractMarkdownInput_init Doubles.urlparse Doubles.mcp_error_str
     Doubles.validation_error_str Doubles.int_of_str Doubles.bool_of_str
     Doubles.valid_formats_iter).
Abbreviation D_get_html_content :=
  (get_html_content Doubles.World Doubles.http_get Doubles.mcp_error_str
     Doubles.validation_error_str).
Abbreviation D_tool engine :=
  (extract_markdown_tool Doubles.World Doubles.urlparse Doubles.http_get engine
     Doubles.mcp_error_str Doubles.validation_error_str Doubles.int_of_str
     Doubles.bool_of_str Doubles.valid_formats_iter).
Abbreviation D_call_tool engine :=
  (call_tool Doubles.World Doubles.urlparse Doubles.http_get engine
     Doubles.mcp_error_str Doubles.validation_error_str Doubles.int_of_str
     Doubles.bool_of_str Doubles.valid_formats_iter).

(** Sample payloads and requests. *)
Abbreviation inline_hello := ({[ "html" := VStr "<p>Hello</p>" ]} : gmap string PyVal).
Abbreviation inline_empty_p := ({[ "html" := VStr "<p></p>" ]} : gmap string PyVal).
Abbreviation inline_spaced := ({[ "html" := VStr " <p>x</p> " ]} : gmap string PyVal).
Abbreviation timeout_1 :=
  ({[ "url" := VStr "https://example.com"; "timeout" := VInt 1 ]} : gmap string PyVal).
Abbreviation timeout_1_error :=
  (ValidationError
     [ {| loc := "timeout"; msg := "Input should be greater than or equal to 5" |} ]).
Abbreviation spaced_request :=
  {| url := None; html := Some " <p>x</p> ";
     precision := true; include_comments := false; include_tables := true;
     include_images := true; include_links := true;
     timeout := 30; output_format := "markdown" |}.
Abbreviation bare_request :=
  {| method := "tools/call";
     params := {| name := "extract_markdown"; arguments := None |} |}.
Abbreviation url_60 :=
  ({[ "url" := VStr "https://example.com"; "timeout" := VInt 60 ]} : gmap string PyVal).
Abbreviation url_60_request :=
  {| url := Some "https://example.com"; html := None;
     precision := true; include_comments := false; include_tables := true;
     include_images := true; include_links := true;
     timeout := 60; output_format := "markdown" |}.
Abbreviation hello_request :=
  {| url := None; html := Some "<p>Hello</p>";
     precision := true; include_comments := false; include_tables := true;
     include_images := true; include_links := true;
     timeout := 30; output_format := "markdown" |}.
Abbreviation the_page := "<html><body><h1>T</h1><p>Body text.</p></body></html>".
Abbreviation D_tool_on http engine :=
  (extract_markdown_tool Doubles.World Doubles.urlparse http engine
     Doubles.mcp_error_str Doubles.validation_error_str Doubles.int_of_str
     Doubles.bool_of_str Doubles.valid_formats_iter).
Abbreviation D_call_tool_on http engine :=
  (call_tool Doubles.World Doubles.urlparse http engine
     Doubles.mcp_error_str Doubles.validation_error_str Doubles.int_of_str
     Doubles.bool_of_str Doubles.valid_formats_iter).
Abbreviation empty_content_error :=
  (McpError INTERNAL_ERROR
     "Trafilatura returned empty content. The page may not contain extractable text.").

Example strip_example : PyStr.strip "  <p>x</p> " = "<p>x</p>".
Proof. reflexivity. Qed.

Example urlparse_https :
  Doubles.urlparse "HTTPS://example.com/a?b"
  = Ret {| scheme := "https"; netloc := "example.com" |}.
Proof. reflexivity. Qed.

Example urlparse_no_scheme :
  Doubles.urlparse "example.com" = Ret {| scheme := ""; netloc := "" |}.
Proof. reflexivity. Qed.

(** The scenarios of the specification. *)

Example scenario_ftp :
  D_tool Doubles.extract_echo {[ "url" := VStr "ftp://example.com" ]} Doubles.s0
  = (Raise (McpError INVALID_PARAMS
       ("Invalid parameters: url: Value error, Invalid URL format: "
        ++ "URL scheme must be http or https")), Doubles.s0).
Proof. vm_compute. reflexivity. Qed.

Example scenario_timeout_1 :
  D_tool Doubles.extract_echo
    {[ "url" := VStr "https://example.com"; "timeout" := VInt 1 ]} Doubles.s0
  = (Raise (McpError INVALID_PARAMS
       "Invalid parameters: timeout: Input should be greater than or equal to 5"),
     Doubles.s0).
Proof. vm_compute. reflexivity. Qed.

Example scenario_inline_html :
  D_call_tool Doubles.extract_echo
    (tool_call "extract_markdown" {[ "html" := VStr "<p>Hello</p>" ]}) Doubles.s0
  = (Ret {| content := [ {| type := "text"; text := "<p>Hello</p>" |} ];
            isError := false |},
     {| world := 1%nat;
        calls := [ Extract "<p>Hello</p>"
                     {| Trafilatura.output_format := "markdown";
                        Trafilatura.favor_recall := false;
                        Trafilatura.include_comments := false;
                        Trafilatura.include_tables := true;
                        Trafilatura.include_images := true;
                        Trafilatura.include_links := true |} ] |}).
Proof. vm_compute. reflexivity. Qed.

(** Neither source: rejected, as the docstring of the model validator
    says. *)
Example neither_source :
  D_init ∅ = Raise (ValidationError
    [ {| loc := ""; msg := "Value error, Provide exactly one of 'url' or 'html'" |} ]).
Proof. vm_compute. reflexivity. Qed.

(** C2. The payload with both a url and html is not rejected: the model
    is constructed with both sources set, although the model validator is
    documented to ensure that exactly one is provided. *)
Theorem both_sources_accepted :
  ExtractMarkdownInput_init Doubles.urlparse Doubles.mcp_error_str
    Doubles.validation_error_str Doubles.int_of_str Doubles.bool_of_str
    Doubles.valid_formats_iter
    {[ "url" := VStr "https://example.com"; "html" := VStr "<p>x</p>" ]}
  = Ret {| url := Some "https://example.com"; html := Some "<p>x</p>";
           precision := true; include_comments := false; include_tables := true;
           include_images := true; include_links := true;
           timeout := 30; output_format := "markdown" |}.
Proof. vm_compute. reflexivity. Qed.

(** With both sources set the pipeline fetches the url and never looks at
    the html. *)
Example both_sources_fetch :
  calls (snd (D_tool Doubles.extract_echo
    {[ "url" := VStr "https://example.com"; "html" := VStr "<p>x</p>" ]} Doubles.s0))
  = [ Fetch "https://example.com" 30;
      Extract "<html><body><h1>T</h1><p>Body text.</p></body></html>"
        {| Trafilatura.output_format := "markdown";
           Trafilatura.favor_recall := false;
           Trafilatura.include_comments := false;
           Trafilatura.include_tables := true;
           Trafilatura.include_images := true;
           Trafilatura.include_links := true |} ].
Proof. vm_compute. reflexivity. Qed.

(** A blank html is let through by the validator as well, and is caught
    only by the acquisition block. *)
Example blank_html_validates :
  returned (D_init {[ "html" := VStr "   " ]}) = true
  /\ D_tool Doubles.extract_echo {[ "html" := VStr "   " ]} Doubles.s0
     = (Raise (McpError INTERNAL_ERROR "No HTML content available for extraction"),
        Doubles.s0).
Proof. split; vm_compute; reflexivity. Qed.

(** ** The theorems at concrete inputs *)

(** The unknown key [verbose] next to inline html. *)
Lemma unknown_keys_ignored_witness :
  D_init (<["verbose" := VBool true]> inline_hello) = D_init inline_hello
  /\ Forall (fun t => additionalProperties (inputSchema t) = false) list_tools.
Proof.
  apply (unknown_keys_ignored Doubles.urlparse Doubles.mcp_error_str
           Doubles.validation_error_str Doubles.int_of_str Doubles.bool_of_str
           Doubles.valid_formats_iter
           {[ "html" := VStr "<p>Hello</p>" ]}
           (<["verbose" := VBool true]> {[ "html" := VStr "<p>Hello</p>" ]})).
  - apply insert_subseteq. vm_compute. reflexivity.
  - intros k Hk Hn Hf.
    rewrite dom_insert, dom_singleton in Hk. rewrite dom_singleton in Hn.
    apply elem_of_union in Hk as [Hk|Hk]; [|contradiction].
    apply elem_of_singleton in Hk. subst k.
    unfold field_names in Hf.
    repeat (apply elem_of_cons in Hf as [Hf|Hf]; [discriminate Hf|]).
    inversion Hf.
Defined.

(** The lower bound 5 on a url payload. *)
Lemma timeout_bounds_witness :
  (returned (D_init (<["timeout" := VInt 5]> {[ "url" := VStr "https://example.com" ]}))
     = true <-> 5 <= 5 <= 120)
  /\ (forall d,
        D_init (<["timeout" := VInt 5]> {[ "url" := VStr "https://example.com" ]}) = Ret d ->
        timeout d = 5).
Proof.
  apply (timeout_bounds Doubles.urlparse Doubles.mcp_error_str
           Doubles.validation_error_str Doubles.int_of_str Doubles.bool_of_str
           Doubles.valid_formats_iter
           {[ "url" := VStr "https://example.com" ]} 5).
  vm_compute. reflexivity.
Defined.

(** The url [ftp://example.com]: parsed, scheme not allowed. *)
Lemma url_scheme_and_host_witness :
  returned (validate_url Doubles.urlparse Doubles.mcp_error_str
              Doubles.validation_error_str (Some "ftp://example.com")) = false
  /\ returned (D_init {[ "url" := VStr "ftp://example.com" ]}) = false.
Proof.
  apply (url_scheme_and_host Doubles.urlparse Doubles.mcp_error_str
           Doubles.validation_error_str Doubles.int_of_str Doubles.bool_of_str
           Doubles.valid_formats_iter
           {[ "url" := VStr "ftp://example.com" ]} "ftp://example.com"
           {| scheme := "ftp"; netloc := "example.com" |}).
  - vm_compute. reflexivity.
  - vm_compute. reflexivity.
  - right. right. simpl. split; discriminate.
Defined.

(** The payload with [timeout = 1]. *)
Lemma validation_failure_precedes_io_witness :
  D_tool Doubles.extract_echo timeout_1 Doubles.s0
    = (Raise (McpError INVALID_PARAMS
         ("Invalid parameters: "
          ++ exn_str Doubles.mcp_error_str Doubles.validation_error_str timeout_1_error)),
       Doubles.s0)
  /\ D_call_tool Doubles.extract_echo (tool_call "extract_markdown" timeout_1) Doubles.s0
    = (Ret (error_result (Doubles.mcp_error_str INVALID_PARAMS
         ("Invalid parameters: "
          ++ exn_str Doubles.mcp_error_str Doubles.validation_error_str timeout_1_error))),
       Doubles.s0).
Proof.
  apply (validation_failure_precedes_io Doubles.World Doubles.urlparse Doubles.http_get
           Doubles.extract_echo Doubles.mcp_error_str Doubles.validation_error_str
           Doubles.int_of_str Doubles.bool_of_str Doubles.valid_formats_iter
           timeout_1 Doubles.s0 timeout_1_error).
  vm_compute. reflexivity.
Defined.

(** The tool name [foo]. *)
Lemma unknown_tool_raises_witness :
  D_call_tool Doubles.extract_echo (tool_call "foo" ∅) Doubles.s0
  = (Raise (McpError INVALID_PARAMS "Unknown tool: foo"), Doubles.s0).
Proof.
  apply (unknown_tool_raises Doubles.World Doubles.urlparse Doubles.http_get
           Doubles.extract_echo Doubles.mcp_error_str Doubles.validation_error_str
           Doubles.int_of_str Doubles.bool_of_str Doubles.valid_formats_iter
           (tool_call "foo" ∅) Doubles.s0).
  - reflexivity.
  - simpl. discriminate.
Defined.

(** A call of [extract_markdown] without arguments. *)
Lemma call_tool_returns_witness :
  exists r,
    D_call_tool Doubles.extract_echo bare_request Doubles.s0
      = (Ret r, snd (D_tool Doubles.extract_echo ∅ Doubles.s0))
    /\ isError r = negb (returned (fst (D_tool Doubles.extract_echo ∅ Doubles.s0)))
    /\ (forall c, fst (D_tool Doubles.extract_echo ∅ Doubles.s0) = Ret c -> content r = c)
    /\ (forall e, fst (D_tool Doubles.extract_echo ∅ Doubles.s0) = Raise e ->
          exists m, content r = [ {| type := "text"; text := m |} ]).
Proof.
  apply (call_tool_returns Doubles.World Doubles.urlparse Doubles.http_get
           Doubles.extract_echo Doubles.mcp_error_str Doubles.validation_error_str
           Doubles.int_of_str Doubles.bool_of_str Doubles.valid_formats_iter
           bare_request Doubles.s0); reflexivity.
Defined.

(** Inline html with surrounding spaces, no url. *)
Lemma inline_html_verbatim_witness :
  snd (D_get_html_content spaced_request Doubles.s0) = Doubles.s0
  /\ (forall h, fst (D_get_html_content spaced_request Doubles.s0) = Ret h ->
        html spaced_request = Some h)
  /\ (forall h, html spaced_request = Some h -> PyStr.blank h = false ->
        fst (D_get_html_content spaced_request Doubles.s0) = Ret h).
Proof.
  apply (inline_html_verbatim Doubles.World Doubles.http_get Doubles.mcp_error_str
           Doubles.validation_error_str spaced_request Doubles.s0).
  reflexivity.
Defined.

(** The scenario [{html: "<p></p>"}] with an engine that finds nothing. *)
Lemma empty_extraction_is_failure_witness :
  exists s2,
    D_tool Doubles.extract_nothing inline_empty_p Doubles.s0
      = (Raise empty_content_error, s2)
    /\ D_call_tool Doubles.extract_nothing
         (tool_call "extract_markdown" inline_empty_p) Doubles.s0
       = (Ret (error_result
                 (exn_str Doubles.mcp_error_str Doubles.validation_error_str
                    empty_content_error)), s2).
Proof.
  eexists.
  apply (empty_extraction_is_failure Doubles.World Doubles.urlparse Doubles.http_get
           Doubles.extract_nothing Doubles.mcp_error_str Doubles.validation_error_str
           Doubles.int_of_str Doubles.bool_of_str Doubles.valid_formats_iter
           inline_empty_p Doubles.s0 Doubles.s0
           {| url := None; html := Some "<p></p>";
              precision := true; include_comments := false; include_tables := true;
              include_images := true; include_links := true;
              timeout := 30; output_format := "markdown" |}
           "<p></p>" None 1%nat).
  - vm_compute. reflexivity.
  - vm_compute. reflexivity.
  - reflexivity.
  - exact I.
Defined.

(** The echoing engine is deterministic. *)
Lemma extraction_idempotent_witness :
  fst (D_tool Doubles.extract_echo inline_hello
         (snd (D_tool Doubles.extract_echo inline_hello Doubles.s0)))
  = fst (D_tool Doubles.extract_echo inline_hello Doubles.s0).
Proof.
  apply (proj2 (extraction_idempotent Doubles.World Doubles.urlparse Doubles.http_get
                  Doubles.extract_echo Doubles.mcp_error_str
                  Doubles.validation_error_str Doubles.int_of_str Doubles.bool_of_str
                  Doubles.valid_formats_iter
                  (fun h kw w w' => eq_refl)) inline_hello Doubles.s0).
  vm_compute. reflexivity.
Defined.

(** ** Where the specification and the code part *)

(** C1 as stated fails: a [tools/call] request naming the unknown tool
    [summarize] is not answered with a result value; the [McpError]
    leaves [call_tool]. *)
Lemma unknown_tool_escapes_call_tool :
  ~ exists r s',
      D_call_tool Doubles.extract_echo
        (tool_call "summarize" {[ "html" := VStr "<p>Hello</p>" ]}) Doubles.s0
      = (Ret r, s').
Proof.
  intros (r & s' & H). vm_compute in H. discriminate H.
Qed.

(** C3 as stated fails: for the tool name [foo] there is no response
    with an error flag, the call raises. *)
Lemma unknown_tool_foo_has_no_result :
  ~ exists r s',
      D_call_tool Doubles.extract_echo (tool_call "foo" ∅) Doubles.s0 = (Ret r, s')
      /\ isError r = true.
Proof.
  intros (r & s' & H & _). vm_compute in H. discriminate H.
Qed.

(** C4 as stated fails: the html [" <p>x</p> "] validates, and the
    acquisition block returns it with its surrounding spaces, which is not
    the trimmed string; the engine is handed the untrimmed string. *)
Lemma inline_html_is_not_trimmed :
  exists d,
    D_init inline_spaced = Ret d
    /\ fst (D_get_html_content d Doubles.s0) = Ret " <p>x</p> "
    /\ fst (D_get_html_content d Doubles.s0) <> Ret (PyStr.strip " <p>x</p> ")
    /\ exists kw, calls (snd (D_tool Doubles.extract_echo inline_spaced Doubles.s0))
                   = [ Extract " <p>x</p> " kw ].
Proof.
  eexists. split; [vm_compute; reflexivity|].
  split; [vm_compute; reflexivity|].
  split; [vm_compute; discriminate|].
  eexists. vm_compute. reflexivity.
Qed.

(** ** The further properties at concrete inputs *)

(** A 404 from the server. *)
Lemma fetch_url_async_messages_witness :
  fst (fetch_url_async Doubles.World Doubles.http_404 Doubles.mcp_error_str
         Doubles.validation_error_str "https://example.com/missing" 30 Doubles.s0)
  = Raise (McpError INTERNAL_ERROR
             ("HTTP " ++ pretty 404 ++ " error fetching URL: "
              ++ "https://example.com/missing")).
Proof.
  apply (fetch_url_async_messages Doubles.World Doubles.http_404 Doubles.mcp_error_str
           Doubles.validation_error_str "https://example.com/missing" 30 Doubles.s0
           (HTTPStatusError 404 "Client error '404 Not Found'")).
  reflexivity.
Defined.

Example status_in_decimal : pretty 404 = "404".
Proof. vm_compute. reflexivity. Qed.

(** A url payload with a timeout of 60. *)
Lemma constructed_model_invariant_witness :
  5 <= timeout url_60_request <= 120
  /\ In (output_format url_60_request) ["markdown"; "txt"; "xml"]
  /\ (forall u, url url_60_request = Some u -> http_url Doubles.urlparse u)
  /\ (url url_60_request = None -> exists h, html url_60_request = Some h).
Proof.
  apply (constructed_model_invariant Doubles.urlparse Doubles.mcp_error_str
           Doubles.validation_error_str Doubles.int_of_str Doubles.bool_of_str
           Doubles.valid_formats_iter url_60 url_60_request).
  vm_compute. reflexivity.
Defined.

(** Inline html and nothing else. *)
Lemma omitted_fields_take_defaults_witness :
  precision hello_request = true /\ timeout hello_request = 30
  /\ output_format hello_request = "markdown".
Proof.
  destruct (omitted_fields_take_defaults Doubles.urlparse Doubles.mcp_error_str
              Doubles.validation_error_str Doubles.int_of_str Doubles.bool_of_str
              Doubles.valid_formats_iter inline_hello hello_request)
    as (_ & _ & P & _ & _ & _ & _ & T & F).
  - vm_compute. reflexivity.
  - split; [apply P | split; [apply T | apply F]]; vm_compute; reflexivity.
Defined.

(** The format [txt] on inline html. *)
Lemma output_format_accepted_witness :
  returned (D_init (<["output_format" := VStr "txt"]> inline_hello)) = true
  <-> In "txt" ["markdown"; "txt"; "xml"].
Proof.
  apply (output_format_accepted Doubles.urlparse Doubles.mcp_error_str
           Doubles.validation_error_str Doubles.int_of_str Doubles.bool_of_str
           Doubles.valid_formats_iter inline_hello "txt").
  vm_compute. reflexivity.
Defined.

(** The one tool there is. *)
Lemma schema_agrees_with_model_witness :
  Forall (fun t => map fst (properties (inputSchema t)) = field_names) list_tools.
Proof.
  constructor; [|constructor].
  apply (schema_agrees_with_model Doubles.urlparse Doubles.mcp_error_str
           Doubles.validation_error_str Doubles.int_of_str Doubles.bool_of_str
           Doubles.valid_formats_iter).
  left. reflexivity.
Defined.

(** The same url with and without html beside it. *)
Lemma url_takes_precedence_witness :
  D_get_html_content
    {| url := Some "https://example.com"; html := Some "<p>x</p>";
       precision := true; include_comments := false; include_tables := true;
       include_images := true; include_links := true;
       timeout := 60; output_format := "markdown" |} Doubles.s0
  = D_get_html_content url_60_request Doubles.s0.
Proof.
  apply (url_takes_precedence Doubles.World Doubles.http_get Doubles.mcp_error_str
           Doubles.validation_error_str _ _ "https://example.com" Doubles.s0);
    solve [reflexivity | discriminate].
Defined.

(** The network times out. *)
Lemma failed_fetch_ends_call_witness :
  exists m,
    D_tool_on Doubles.http_timeout Doubles.extract_echo url_60 Doubles.s0
      = (Raise (McpError INTERNAL_ERROR m),
         after_call Doubles.World Doubles.s0 1%nat (Fetch "https://example.com" 60))
    /\ D_call_tool_on Doubles.http_timeout Doubles.extract_echo
         (tool_call "extract_markdown" url_60) Doubles.s0
      = (Ret (error_result (Doubles.mcp_error_str INTERNAL_ERROR m)),
         after_call Doubles.World Doubles.s0 1%nat (Fetch "https://example.com" 60)).
Proof.
  apply (failed_fetch_ends_call Doubles.World Doubles.urlparse Doubles.http_timeout
           Doubles.extract_echo Doubles.mcp_error_str Doubles.validation_error_str
           Doubles.int_of_str Doubles.bool_of_str Doubles.valid_formats_iter
           url_60 url_60_request "https://example.com" Doubles.s0
           (TimeoutException "timed out") 1%nat).
  - vm_compute. reflexivity.
  - reflexivity.
  - discriminate.
  - reflexivity.
Defined.

(** Inline html of spaces only. *)
Lemma blank_content_is_reported_witness :
  D_tool Doubles.extract_echo {[ "html" := VStr "   " ]} Doubles.s0
  = (Raise (McpError INTERNAL_ERROR "No HTML content available for extraction"),
     Doubles.s0).
Proof.
  destruct (blank_content_is_reported Doubles.World Doubles.urlparse Doubles.http_get
              Doubles.extract_echo Doubles.mcp_error_str
              Doubles.validation_error_str Doubles.int_of_str Doubles.bool_of_str
              Doubles.valid_formats_iter {[ "html" := VStr "   " ]}
              {| url := None; html := Some "   ";
                 precision := true; include_comments := false;
                 include_tables := true; include_images := true;
                 include_links := true; timeout := 30;
                 output_format := "markdown" |} Doubles.s0) as [_ H].
  - vm_compute. reflexivity.
  - apply (H "   "); reflexivity.
Defined.

(** A page fetched and echoed back by the engine. *)
Lemma url_path_success_witness :
  D_tool Doubles.extract_echo url_60 Doubles.s0
  = (Ret [ {| type := "text"; text := PyStr.strip the_page |} ],
     {| world := 2%nat;
        calls := [Fetch "https://example.com" 60;
                  Extract the_page (kwargs_of url_60_request)] |}).
Proof.
  apply (url_path_success Doubles.World Doubles.urlparse Doubles.http_get
           Doubles.extract_echo Doubles.mcp_error_str Doubles.validation_error_str
           Doubles.int_of_str Doubles.bool_of_str Doubles.valid_formats_iter
           url_60 url_60_request "https://example.com" the_page the_page
           Doubles.s0 1%nat 2%nat).
  - vm_compute. reflexivity.
  - reflexivity.
  - discriminate.
  - reflexivity.
  - vm_compute. reflexivity.
  - reflexivity.
  - vm_compute. reflexivity.
Defined.

(** Inline html echoed back by the engine. *)
Lemma inline_path_success_witness :
  D_tool Doubles.extract_echo inline_hello Doubles.s0
  = (Ret [ {| type := "text"; text := PyStr.strip "<p>Hello</p>" |} ],
     after_call Doubles.World Doubles.s0 1%nat
       (Extract "<p>Hello</p>" (kwargs_of hello_request))).
Proof.
  apply (inline_path_success Doubles.World Doubles.urlparse Doubles.http_get
           Doubles.extract_echo Doubles.mcp_error_str Doubles.validation_error_str
           Doubles.int_of_str Doubles.bool_of_str Doubles.valid_formats_iter
           inline_hello hello_request "<p>Hello</p>" "<p>Hello</p>" Doubles.s0 1%nat).
  - vm_compute. reflexivity.
  - reflexivity.
  - reflexivity.
  - vm_compute. reflexivity.
  - reflexivity.
  - vm_compute. reflexivity.
Defined.

(** An engine that crashes on inline html. *)
Lemma engine_fault_is_reported_witness :
  D_tool Doubles.extract_crash inline_hello Doubles.s0
  = (Raise (McpError INTERNAL_ERROR
              ("Content extraction failed: "
               ++ exn_str Doubles.mcp_error_str Doubles.validation_error_str
                    (Exception "parser error"))),
     after_call Doubles.World Doubles.s0 1%nat
       (Extract "<p>Hello</p>" (kwargs_of hello_request))).
Proof.
  apply (engine_fault_is_reported Doubles.World Doubles.urlparse Doubles.http_get
           Doubles.extract_crash Doubles.mcp_error_str Doubles.validation_error_str
           Doubles.int_of_str Doubles.bool_of_str Doubles.valid_formats_iter
           inline_hello hello_request "<p>Hello</p>" Doubles.s0 Doubles.s0
           (Exception "parser error") 1%nat).
  - vm_compute. reflexivity.
  - vm_compute. reflexivity.
  - reflexivity.
Defined.

(** The method [tools/list] sent to [call_tool]. *)
Lemma unknown_method_raises_witness :
  D_call_tool Doubles.extract_echo
    {| method := "tools/list";
       params := {| name := "extract_markdown"; arguments := None |} |} Doubles.s0
  = (Raise (McpError METHOD_NOT_FOUND ("Method not found: " ++ "tools/list")), Doubles.s0).
Proof.
  apply (unknown_method_raises Doubles.World Doubles.urlparse Doubles.http_get
           Doubles.extract_echo Doubles.mcp_error_str Doubles.validation_error_str
           Doubles.int_of_str Doubles.bool_of_str Doubles.valid_formats_iter
           {| method := "tools/list";
              params := {| name := "extract_markdown"; arguments := None |} |}
           Doubles.s0).
  simpl. discriminate.
Defined.

(** The engine echoes html with spaces around it. *)
Lemma success_payload_is_trimmed_witness :
  exists t,
    [ {| type := "text"; text := "<p>x</p>" |} ] = [ {| type := "text"; text := t |} ]
    /\ t <> "" /\ PyStr.strip t = t.
Proof.
  apply (success_payload_is_trimmed Doubles.World Doubles.urlparse Doubles.http_get
           Doubles.extract_echo Doubles.mcp_error_str Doubles.validation_error_str
           Doubles.int_of_str Doubles.bool_of_str Doubles.valid_formats_iter
           (tool_call "extract_markdown" inline_spaced) Doubles.s0
           {| world := 1%nat;
              calls := [ Extract " <p>x</p> "
                           {| Trafilatura.output_format := "markdown";
                              Trafilatura.favor_recall := false;
                              Trafilatura.include_comments := false;
                              Trafilatura.include_tables := true;
                              Trafilatura.include_images := true;
                              Trafilatura.include_links := true |} ] |}
           {| content := [ {| type := "text"; text := "<p>x</p>" |} ];
              isError := false |}).
  - vm_compute. reflexivity.
  - reflexivity.
Defined.

(** A call without arguments. *)
Lemma missing_sources_are_rejected_witness :
  exists r, D_call_tool Doubles.extract_echo bare_request Doubles.s0 = (Ret r, Doubles.s0)
    /\ isError r = true.
Proof.
  apply (missing_sources_are_rejected Doubles.World Doubles.urlparse Doubles.http_get
           Doubles.extract_echo Doubles.mcp_error_str Doubles.validation_error_str
           Doubles.int_of_str Doubles.bool_of_str Doubles.valid_formats_iter
           bare_request Doubles.s0).
  - reflexivity.
  - reflexivity.
  - discriminate.
Defined.
